(** * python_vimeo.client: a shallow embedding of the [Vimeo] wrapper class

    The class in [src/python_vimeo/client.py] maps each public method onto one
    call of the [requests] library or of the PyVimeo SDK and records the
    status of the last HTTP response in [self.response_code].

    The embedding keeps the shape of the Python code:
    - JSON-like Python values are the inductive type [pyval], with Python's
      truthiness ([truthy]) and subscripting ([getitem]);
    - exceptions are an error monad, threaded together with the state of the
      object ([self]), the local file system and the trace of calls that left
      the process (HTTP requests, SDK calls, downloads, file removals);
    - the network, the SDK, and the HTML and URL parsers are not part of the
      repository: they are the fields of an environment record [env]. *)

From Stdlib Require Import ZArith String Ascii List Bool.
From stdpp Require Import base gmap strings list pretty.

Set Warnings "-register-all".
Local Open Scope Z_scope.
Local Open Scope string_scope.
Local Open Scope list_scope.

(** ** Python values *)

Inductive pyval : Type :=
| PNone
| PBool (b : bool)
| PInt (z : Z)
| PStr (s : string)
| PList (l : list pyval)
| PDict (d : list (string * pyval)).

(** [bool(v)] in Python: [None], [False], [0], the empty string, list and
    dict are false. *)
Definition truthy (v : pyval) : bool :=
  match v with
  | PNone => false
  | PBool b => b
  | PInt z => negb (Z.eqb z 0)
  | PStr s => negb (String.eqb s "")
  | PList l => match l with [] => false | _ :: _ => true end
  | PDict d => match d with [] => false | _ :: _ => true end
  end.

(** A keyword argument with a default: [None] is the argument left out. *)
Definition kwarg {A : Type} (dflt : A) (o : option A) : A :=
  match o with
  | Some a => a
  | None => dflt
  end.

(** ** Exceptions *)

Inductive exn : Type :=
| NotImplementedError
| KeyError (k : string)
| TypeError
| AttributeError
| IndexError
| ValueError
| JSONDecodeError
| FileNotFoundError
| SdkError (msg : string)
| URLError (msg : string).

Inductive result (A : Type) : Type :=
| Ok (a : A)
| Raise (e : exn).
Arguments Ok {A} a.
Arguments Raise {A} e.

(** Lookup in a dict given as an association list, first binding first. *)
Fixpoint assoc {A : Type} (k : string) (d : list (string * A)) : option A :=
  match d with
  | [] => None
  | (k', v) :: d' => if String.eqb k k' then Some v else assoc k d'
  end.

(** [v[k]] for a string key [k]: a [KeyError] on a dict without the key, a
    [TypeError] on anything that is not a dict. *)
Definition getitem (v : pyval) (k : string) : result pyval :=
  match v with
  | PDict d =>
      match assoc k d with
      | Some x => Ok x
      | None => Raise (KeyError k)
      end
  | _ => Raise TypeError
  end.

(** ** Strings *)

(** [s.split(sep)] for a one-character separator. *)
Fixpoint split (sep : ascii) (s : string) : list string :=
  match s with
  | EmptyString => [EmptyString]
  | String c s' =>
      if Ascii.eqb c sep then EmptyString :: split sep s'
      else match split sep s' with
           | [] => [String c EmptyString]
           | x :: xs => String c x :: xs
           end
  end.

(** [l.pop()]: the last element, an [IndexError] on the empty list. *)
Fixpoint pop (l : list string) : result string :=
  match l with
  | [] => Raise IndexError
  | [x] => Ok x
  | _ :: l' => pop l'
  end.

(** [s.startswith(p)]. *)
Definition startswith (s p : string) : bool := String.prefix p s.

(** [s.replace(old, new)] for a non-empty [old]: occurrences are replaced
    from the left and do not overlap. [skip] counts the characters of an
    occurrence that are still to be dropped. *)
Fixpoint replace_from (old new : string) (skip : nat) (s : string) : string :=
  match s with
  | EmptyString => EmptyString
  | String c s' =>
      match skip with
      | S k => replace_from old new k s'
      | O =>
          if String.prefix old s
          then new +:+ replace_from old new (Nat.pred (String.length old)) s'
          else String c (replace_from old new 0 s')
      end
  end.

Definition replace (old new s : string) : string := replace_from old new 0 s.

Definition lower_ascii (c : ascii) : ascii :=
  let n := nat_of_ascii c in
  if (Nat.leb 65 n && Nat.leb n 90)%bool then ascii_of_nat (n + 32) else c.

Fixpoint lower (s : string) : string :=
  match s with
  | EmptyString => EmptyString
  | String c s' => String (lower_ascii c) (lower s')
  end.

(** [os.path.basename(p)] on a POSIX system: what follows the last slash. *)
Definition basename (p : string) : string :=
  match pop (split "/" p) with
  | Ok b => b
  | Raise _ => EmptyString
  end.

(** An optional string inside an f-string: [None] prints as [None]. *)
Definition fmt_ostr (o : option string) : string :=
  match o with
  | Some s => s
  | None => "None"
  end.

Definition fmt_oint (o : option Z) : string :=
  match o with
  | Some z => pretty z
  | None => "None"
  end.

Definition truthy_ostr (o : option string) : bool :=
  match o with
  | Some s => negb (String.eqb s "")
  | None => false
  end.

(** ** The outside world: requests, responses and the trace *)

Inductive http_method : Type := GET | HEAD | POST | PUT | PATCH | DELETE.

Record request : Type := mk_request {
  rq_method : http_method;
  rq_url : string;
  rq_headers : option (list (string * string));
  rq_json : option pyval;
  rq_allow_redirects : option bool
}.

(** A response: [rs_json] is what [response.json()] returns, [None] when the
    body does not decode and the call raises. *)
Record response : Type := mk_response {
  status_code : Z;
  rs_headers : list (string * string);
  rs_json : option pyval
}.

(** [k in response.headers]: the header names of [requests] compare without
    regard to case. *)
Fixpoint header_lookup (k : string) (h : list (string * string)) : option string :=
  match h with
  | [] => None
  | (k', v) :: h' =>
      if String.eqb (lower k) (lower k') then Some v else header_lookup k h'
  end.

(** The SDK client object built by [VimeoClient(token=, key=, secret=)]. *)
Record VimeoClient : Type := mk_VimeoClient {
  vc_token : option string;
  vc_key : option string;
  vc_secret : option string
}.

Inductive event : Type :=
| EvRequest (r : request)
| EvUrlRetrieve (url filename : string)
| EvSdkUpload (c : VimeoClient) (file_path : string) (data : pyval)
| EvSdkUploadPicture (c : VimeoClient) (video_uri file_path : string) (activate : bool)
| EvRemove (path : string).

(** An element of a parsed HTML document, as [bs4] exposes it. *)
Record bs4_tag : Type := mk_tag {
  tag_name : string;
  tag_attrs : list (string * string)
}.

(** What the code calls and the repository does not contain. Every answer may
    depend on the calls made so far. *)
Record env : Type := mk_env {
  (* the [requests] library and the remote service behind it *)
  remote : list event -> request -> response;
  (* [VimeoClient.upload]: the video URI, or an exception *)
  sdk_upload : list event -> VimeoClient -> string -> pyval -> result pyval;
  (* [VimeoClient.upload_picture]: the picture record, or an exception *)
  sdk_upload_picture :
    list event -> VimeoClient -> string -> string -> bool -> result pyval;
  (* the download done by [urllib.request.urlretrieve]: [None] is success *)
  url_fetch : list event -> string -> option exn;
  (* whether a download that raises had already written to its file, as when
     the connection breaks after the file was opened *)
  fetch_leaves_file : list event -> string -> bool;
  (* the name [urlretrieve] picks when it is given an empty file name *)
  temp_name : list event -> string;
  (* [bs4.BeautifulSoup(markup, "html.parser")]: the tags in document order *)
  bs4_parse : pyval -> result (list bs4_tag);
  (* [urlparse(url).query] *)
  urlparse_query : string -> result string;
  (* [parse_qs(query)]: a dict from names to lists of values *)
  parse_qs : string -> result (list (string * list string))
}.

(** ** The object and the state *)

Record Vimeo : Type := mk_Vimeo {
  ACCESS_TOKEN : option string;
  CLIENT_ID : option string;
  CLIENT_SECRET : option string;
  USER_ID : option Z;
  py_vimeo_client : option VimeoClient;
  response_code : option Z;
  REQUEST_HEADERS : list (string * string)
}.

Record world : Type := mk_world {
  self : Vimeo;
  trace : list event;
  files : gset string
}.

(** [Vimeo.__init__]. *)
Definition Vimeo_init (access_token client_id client_secret : option string)
    (user_id : option Z) : Vimeo :=
  {| ACCESS_TOKEN := access_token;
     CLIENT_ID := client_id;
     CLIENT_SECRET := client_secret;
     USER_ID := user_id;
     py_vimeo_client := None;
     response_code := None;
     REQUEST_HEADERS :=
       [("Authorization", "bearer " +:+ fmt_ostr access_token);
        ("Content-Type", "application/json");
        ("Accept", "application/vnd.vimeo.*+json;version=3.4")] |}.

Definition set_py_vimeo_client (c : VimeoClient) (v : Vimeo) : Vimeo :=
  {| ACCESS_TOKEN := ACCESS_TOKEN v;
     CLIENT_ID := CLIENT_ID v;
     CLIENT_SECRET := CLIENT_SECRET v;
     USER_ID := USER_ID v;
     py_vimeo_client := Some c;
     response_code := response_code v;
     REQUEST_HEADERS := REQUEST_HEADERS v |}.

Definition set_response_code_field (o : option Z) (v : Vimeo) : Vimeo :=
  {| ACCESS_TOKEN := ACCESS_TOKEN v;
     CLIENT_ID := CLIENT_ID v;
     CLIENT_SECRET := CLIENT_SECRET v;
     USER_ID := USER_ID v;
     py_vimeo_client := py_vimeo_client v;
     response_code := o;
     REQUEST_HEADERS := REQUEST_HEADERS v |}.

Definition with_self (v : Vimeo) (w : world) : world :=
  {| self := v; trace := trace w; files := files w |}.

Definition emit (e : event) (w : world) : world :=
  {| self := self w; trace := trace w ++ [e]; files := files w |}.

Definition with_files (f : gset string) (w : world) : world :=
  {| self := self w; trace := trace w; files := f |}.

(** ** The monad: state and exceptions *)

Definition M (A : Type) : Type := world -> world * result A.

Definition ret {A : Type} (a : A) : M A := fun w => (w, Ok a).

Definition raise {A : Type} (e : exn) : M A := fun w => (w, Raise e).

Definition bind {A B : Type} (m : M A) (k : A -> M B) : M B :=
  fun w =>
    match m w with
    | (w', Ok a) => k a w'
    | (w', Raise e) => (w', Raise e)
    end.

Definition lift {A : Type} (r : result A) : M A := fun w => (w, r).

Notation "x <- m ;; k" := (bind m (fun x => k))
  (at level 100, m at next level, right associativity).
Notation "m ;;; k" := (bind m (fun _ => k))
  (at level 100, right associativity).

(** [try: body except Exception: handler]: every exception of the model is
    an [Exception]. The state reached when the exception was raised is kept. *)
Definition try_except {A : Type} (body : M A) (handler : exn -> M A) : M A :=
  fun w =>
    match body w with
    | (w', Ok a) => (w', Ok a)
    | (w', Raise e) => handler e w'
    end.

(** ** Attribute access on values that may be [None] *)

(** [soup.find(name)]: the first tag of that name, or [None]. *)
Definition soup_find (name : string) (soup : list bs4_tag) : option bs4_tag :=
  List.find (fun t => String.eqb (tag_name t) name) soup.

(** [t.get(a)]: an [AttributeError] when [t] is [None]. *)
Definition tag_get (t : option bs4_tag) (a : string) : result (option string) :=
  match t with
  | Some t => Ok (assoc a (tag_attrs t))
  | None => Raise AttributeError
  end.

(** [s.replace(old, new)]: an [AttributeError] when [s] is [None]. *)
Definition str_replace (s : option string) (old new : string) : result string :=
  match s with
  | Some s => Ok (replace old new s)
  | None => Raise AttributeError
  end.

(** [d[k]] on the dict returned by [parse_qs]. *)
Definition qs_getitem (d : list (string * list string)) (k : string)
    : result (list string) :=
  match assoc k d with
  | Some l => Ok l
  | None => Raise (KeyError k)
  end.

(** [l[0]]. *)
Definition first_item (l : list string) : result string :=
  match l with
  | x :: _ => Ok x
  | [] => Raise IndexError
  end.

(** [self.REQUEST_HEADERS]. *)
Definition get_REQUEST_HEADERS : M (list (string * string)) :=
  fun w => (w, Ok (REQUEST_HEADERS (self w))).

(** [self.USER_ID]. *)
Definition get_USER_ID : M (option Z) :=
  fun w => (w, Ok (USER_ID (self w))).

(** ** The methods of the class *)

Section Client.

Variable E : env.

(** *** Calls that leave the process *)

(** A call of the [requests] library that is answered: the request is added
    to the trace and the answer of the service is returned. The runs of the
    model are those in which the library returns an answer to every request;
    a call on which the library itself raises (a malformed URL or header, no
    connection) ends the method at that call, before [response_code] is
    written, and is not a run of the model. *)
Definition requests_send (r : request) : M response :=
  fun w => (emit (EvRequest r) w, Ok (remote E (trace w) r)).

Definition requests_get (url : string) (headers : list (string * string))
    : M response :=
  requests_send (mk_request GET url (Some headers) None None).

Definition requests_head (url : string) (allow_redirects : bool) : M response :=
  requests_send (mk_request HEAD url None None (Some allow_redirects)).

Definition requests_post (url : string) (headers : list (string * string))
    (json : pyval) : M response :=
  requests_send (mk_request POST url (Some headers) (Some json) None).

Definition requests_put (url : string) (headers : list (string * string))
    : M response :=
  requests_send (mk_request PUT url (Some headers) None None).

Definition requests_patch (url : string) (headers : list (string * string))
    (json : pyval) : M response :=
  requests_send (mk_request PATCH url (Some headers) (Some json) None).

Definition requests_delete (url : string) (headers : list (string * string))
    (json : option pyval) : M response :=
  requests_send (mk_request DELETE url (Some headers) json None).

(** [response.json()]. *)
Definition response_json (r : response) : M pyval :=
  match rs_json r with
  | Some v => ret v
  | None => raise JSONDecodeError
  end.

(** [client.upload(file_path, data=data)]. *)
Definition client_upload (c : VimeoClient) (file_path : string) (data : pyval)
    : M pyval :=
  fun w => (emit (EvSdkUpload c file_path data) w,
            sdk_upload E (trace w) c file_path data).

(** [client.upload_picture(video_uri, file_path, activate=activate)]. *)
Definition client_upload_picture (c : VimeoClient) (video_uri file_path : string)
    (activate : bool) : M pyval :=
  fun w => (emit (EvSdkUploadPicture c video_uri file_path activate) w,
            sdk_upload_picture E (trace w) c video_uri file_path activate).

(** [urllib.request.urlretrieve(url, filename)]: the download is written to
    [filename], or to a fresh temporary file when [filename] is empty; the
    name of the file written is returned. A download that raises has either
    failed before the file was opened, or left the file behind. *)
Definition urlretrieve (url filename : string) : M string :=
  fun w =>
    let w1 := emit (EvUrlRetrieve url filename) w in
    let name :=
      if String.eqb filename "" then temp_name E (trace w) else filename in
    match url_fetch E (trace w) url with
    | Some e =>
        if fetch_leaves_file E (trace w) url
        then (with_files ({[name]} ∪ files w1) w1, Raise e)
        else (w1, Raise e)
    | None => (with_files ({[name]} ∪ files w1) w1, Ok name)
    end.

(** [os.path.exists(path)]. *)
Definition os_path_exists (path : string) : M bool :=
  fun w => (w, Ok (bool_decide (path ∈ files w))).

(** [os.remove(path)]. *)
Definition os_remove (path : string) : M unit :=
  fun w =>
    if bool_decide (path ∈ files w)
    then (with_files (files w ∖ {[path]}) (emit (EvRemove path) w), Ok tt)
    else (w, Raise FileNotFoundError).

(** *** [Vimeo._get_or_set_py_vimeo_client] *)
Definition _get_or_set_py_vimeo_client : M VimeoClient :=
  fun w =>
    let s := self w in
    if (negb (truthy_ostr (CLIENT_ID s)) || negb (truthy_ostr (CLIENT_SECRET s)))%bool
    then (w, Raise NotImplementedError)
    else
      match py_vimeo_client s with
      | Some c => (w, Ok c)
      | None =>
          let c := mk_VimeoClient (ACCESS_TOKEN s) (CLIENT_ID s) (CLIENT_SECRET s) in
          (with_self (set_py_vimeo_client c s) w, Ok c)
      end.

(** *** [Vimeo._set_response_code] *)
Definition _set_response_code (status_code : option Z) : M unit :=
  fun w =>
    let falsy :=
      match status_code with
      | None => true
      | Some z => Z.eqb z 0
      end in
    if falsy
    then (with_self (set_response_code_field None (self w)) w, Ok tt)
    else (with_self (set_response_code_field status_code (self w)) w, Ok tt).

(** The default [data] of [upload_video]. *)
Definition upload_video_default_data (video_name video_description : pyval)
    : pyval :=
  PDict
    [("name", video_name);
     ("description", video_description);
     ("content_rating", PList [PStr "safe"]);
     ("privacy",
       PDict [("download", PBool false);
              ("embed", PStr "whitelist");
              ("comments", PStr "nobody");
              ("view", PStr "disable")]);
     ("review_page", PDict [("active", PBool false)])].

(** *** [Vimeo.upload_video] *)
Definition upload_video (file_path : string)
    (video_name video_description settings : option pyval) : M pyval :=
  let video_name := kwarg PNone video_name in
  let video_description := kwarg PNone video_description in
  let settings := kwarg (PDict []) settings in
  client <- _get_or_set_py_vimeo_client ;;
  video_uri <- client_upload client file_path
                 (if negb (truthy settings)
                  then upload_video_default_data video_name video_description
                  else settings) ;;
  _set_response_code (if truthy video_uri then Some 200 else None) ;;;
  ret video_uri.

(** *** [Vimeo.upload_picture] *)
Definition upload_picture (video_uri file_path : string) : M pyval :=
  lf <- (if startswith file_path "http"
         then
           let local_file := basename file_path in
           file_path' <- urlretrieve file_path local_file ;;
           ret (Some local_file, file_path')
         else ret (None, file_path)) ;;
  let local_file : option string := fst lf in
  let file_path := snd lf in
  client <- _get_or_set_py_vimeo_client ;;
  upload_response <- client_upload_picture client video_uri file_path true ;;
  (match local_file with
   | Some name =>
       if negb (String.eqb name "")
       then
         present <- os_path_exists name ;;
         if (present : bool) then os_remove name else ret tt
       else ret tt
   | None => ret tt
   end) ;;;
  ret upload_response.

(** [video_uri.split("/").pop()]. *)
Definition video_id_of (video_uri : string) : M string :=
  lift (pop (split "/" video_uri)).

(** *** [Vimeo.get_video] *)
Definition get_video (video_uri : string) : M pyval :=
  video_id <- video_id_of video_uri ;;
  headers <- get_REQUEST_HEADERS ;;
  response <- requests_get ("https://api.vimeo.com/videos/" +:+ video_id) headers ;;
  _set_response_code (Some (status_code response)) ;;;
  response_json response.

(** *** [Vimeo.get_common_video_information] *)
Definition get_common_video_information (video_uri : string) : M pyval :=
  video <- get_video video_uri ;;
  transcode <- lift (getitem video "transcode") ;;
  status <- lift (getitem transcode "status") ;;
  is_playable <- lift (getitem video "is_playable") ;;
  link <- lift (getitem video "link") ;;
  duration <- lift (getitem video "duration") ;;
  width <- lift (getitem video "width") ;;
  height <- lift (getitem video "height") ;;
  ret (PDict [("status", status);
              ("is_playable", is_playable);
              ("link", link);
              ("duration", duration);
              ("width", width);
              ("height", height)]).

(** The ratings [change_video_content_rating] accepts. *)
Definition content_ratings : list string :=
  ["violence"; "drugs"; "language"; "nudity"; "advertisement"; "safe"; "unrated"].

(** [x in l] on a list of strings. *)
Definition str_in (x : string) (l : list string) : bool :=
  existsb (String.eqb x) l.

(** *** [Vimeo.change_video_content_rating] *)
Definition change_video_content_rating (video_uri : string)
    (rating : option string) : M pyval :=
  let rating := kwarg "safe" rating in
  if negb (str_in rating content_ratings)
  then raise NotImplementedError
  else
    video_id <- video_id_of video_uri ;;
    let data := PDict [("content_rating", PList [PStr rating])] in
    headers <- get_REQUEST_HEADERS ;;
    response <- requests_patch ("https://api.vimeo.com/videos/" +:+ video_id)
                  headers data ;;
    _set_response_code (Some (status_code response)) ;;;
    response_json response.

(** The default [data] of [pull_video_from_url]. *)
Definition pull_video_default_data (download_url video_name : string)
    (folder_uri file_size logo_link : pyval) : pyval :=
  PDict
    [("name", PStr video_name);
     ("description", PStr "");
     ("upload",
       PDict [("approach", PStr "pull");
              ("size", file_size);
              ("link", PStr download_url)]);
     ("content_rating", PList [PStr "safe"]);
     ("privacy",
       PDict [("download", PBool false);
              ("embed", PStr "whitelist");
              ("comments", PStr "nobody");
              ("view", PStr "disable")]);
     ("review_page", PDict [("active", PBool false)]);
     ("embed",
       PDict [("buttons",
                PDict [("embed", PBool false);
                       ("fullscreen", PBool true);
                       ("hd", PBool true);
                       ("share", PBool false);
                       ("watchlater", PBool false)]);
              ("color", PStr "#feeff0");
              ("logos",
                PDict [("custom",
                         PDict [("active", PBool true);
                                ("link", if truthy logo_link then logo_link else PNone);
                                ("sticky", PBool true)]);
                       ("vimeo", PBool false)]);
              ("playbar", PBool true);
              ("title",
                PDict [("name", PStr "hide");
                       ("owner", PStr "hide");
                       ("portrait", PStr "hide")]);
              ("volume", PBool true)]);
     ("folder_uri", if truthy folder_uri then folder_uri else PNone)].

(** The size [pull_video_from_url] reads off the answer to its HEAD request. *)
Definition content_length_or_zero (r : response) : pyval :=
  match header_lookup "Content-Length" (rs_headers r) with
  | Some v => PStr v
  | None => PInt 0
  end.

(** *** [Vimeo.pull_video_from_url] *)
Definition pull_video_from_url (download_url video_name : string)
    (folder_uri file_size settings logo_link : option pyval) : M pyval :=
  let folder_uri := kwarg PNone folder_uri in
  let file_size := kwarg PNone file_size in
  let settings := kwarg (PDict []) settings in
  let logo_link := kwarg (PStr "") logo_link in
  file_size <- (if negb (truthy file_size)
                then
                  response <- requests_head download_url true ;;
                  ret (content_length_or_zero response)
                else ret file_size) ;;
  let data :=
    if negb (truthy settings)
    then pull_video_default_data download_url video_name folder_uri file_size logo_link
    else settings in
  headers <- get_REQUEST_HEADERS ;;
  response <- requests_post "https://api.vimeo.com/me/videos" headers data ;;
  _set_response_code (Some (status_code response)) ;;;
  response <- response_json response ;;
  video_uri <- lift (getitem response "uri") ;;
  ret video_uri.

(** *** [Vimeo.update_video_title] *)
Definition update_video_title (video_uri title : string) : M Z :=
  let data := PDict [("name", PStr title)] in
  headers <- get_REQUEST_HEADERS ;;
  response <- requests_patch ("https://api.vimeo.com" +:+ video_uri) headers data ;;
  _set_response_code (Some (status_code response)) ;;;
  ret (status_code response).

(** *** [Vimeo.delete_video] *)
Definition delete_video (video_uri : string) : M Z :=
  headers <- get_REQUEST_HEADERS ;;
  response <- requests_delete ("https://api.vimeo.com" +:+ video_uri) headers None ;;
  _set_response_code (Some (status_code response)) ;;;
  ret (status_code response).

(** *** [Vimeo.create_folder] *)
Definition create_folder (folder_name : string) : M pyval :=
  let data := PDict [("name", PStr folder_name)] in
  user_id <- get_USER_ID ;;
  headers <- get_REQUEST_HEADERS ;;
  response <- requests_post
                ("https://api.vimeo.com/users/" +:+ fmt_oint user_id +:+ "/projects")
                headers data ;;
  _set_response_code (Some (status_code response)) ;;;
  response <- response_json response ;;
  folder_uri <- lift (getitem response "uri") ;;
  ret folder_uri.

(** *** [Vimeo.update_folder_name] *)
Definition update_folder_name (folder_uri new_folder_name : string) : M string :=
  let data := PDict [("name", PStr new_folder_name)] in
  headers <- get_REQUEST_HEADERS ;;
  response <- requests_patch ("https://api.vimeo.com" +:+ folder_uri) headers data ;;
  _set_response_code (Some (status_code response)) ;;;
  response <- response_json response ;;
  ret folder_uri.

(** *** [Vimeo.delete_folder] *)
Definition delete_folder (folder_uri : string)
    (delete_all_videos_in_folder : option bool) : M string :=
  let delete_all_videos_in_folder := kwarg false delete_all_videos_in_folder in
  let data := PDict [("should_delete_clips", PBool delete_all_videos_in_folder)] in
  headers <- get_REQUEST_HEADERS ;;
  response <- requests_delete ("https://api.vimeo.com" +:+ folder_uri) headers
                (Some data) ;;
  _set_response_code (Some (status_code response)) ;;;
  ret folder_uri.

(** *** [Vimeo.remove_video_from_folder] *)
Definition remove_video_from_folder (folder_uri video_uri : string) : M string :=
  video_id <- video_id_of video_uri ;;
  headers <- get_REQUEST_HEADERS ;;
  response <- requests_delete
                ("https://api.vimeo.com" +:+ folder_uri +:+ "/videos/" +:+ video_id)
                headers None ;;
  _set_response_code (Some (status_code response)) ;;;
  ret folder_uri.

(** *** [Vimeo.add_video_to_folder] *)
Definition add_video_to_folder (folder_uri video_uri : string) : M Z :=
  video_id <- video_id_of video_uri ;;
  headers <- get_REQUEST_HEADERS ;;
  response <- requests_put
                ("https://api.vimeo.com" +:+ folder_uri +:+ "/videos/" +:+ video_id)
                headers ;;
  _set_response_code (Some (status_code response)) ;;;
  ret (status_code response).

(** *** [Vimeo.tag_video] *)
Definition tag_video (video_uri tag : string) : M Z :=
  video_id <- video_id_of video_uri ;;
  headers <- get_REQUEST_HEADERS ;;
  response <- requests_put
                ("https://api.vimeo.com/videos/" +:+ video_id +:+ "/tags/" +:+ tag)
                headers ;;
  _set_response_code (Some (status_code response)) ;;;
  ret (status_code response).

(** *** [Vimeo.remove_tag_from_video] *)
Definition remove_tag_from_video (video_uri tag : string) : M Z :=
  video_id <- video_id_of video_uri ;;
  headers <- get_REQUEST_HEADERS ;;
  response <- requests_delete
                ("https://api.vimeo.com/videos/" +:+ video_id +:+ "/tags/" +:+ tag)
                headers None ;;
  _set_response_code (Some (status_code response)) ;;;
  ret (status_code response).

(** *** [Vimeo.domain_whitelist_video] *)
Definition domain_whitelist_video (video_uri domain : string) : M Z :=
  video_id <- video_id_of video_uri ;;
  headers <- get_REQUEST_HEADERS ;;
  response <- requests_put
                ("https://api.vimeo.com/videos/" +:+ video_id
                   +:+ "/privacy/domains/" +:+ domain)
                headers ;;
  _set_response_code (Some (status_code response)) ;;;
  ret (status_code response).

(** The body of the [try] block of [get_video_hash]. *)
Definition hash_of_video (vimeo_video : pyval) : M string :=
  embed <- lift (getitem vimeo_video "embed") ;;
  iframe <- lift (getitem embed "html") ;;
  soup <- lift (bs4_parse E iframe) ;;
  src <- lift (tag_get (soup_find "iframe" soup) "src") ;;
  src <- lift (str_replace src "&amp;" "&") ;;
  query <- lift (urlparse_query E src) ;;
  params <- lift (parse_qs E query) ;;
  values <- lift (qs_getitem params "h") ;;
  lift (first_item values).

(** *** [Vimeo.get_video_hash] *)
Definition get_video_hash (video_uri : string) : M string :=
  vimeo_video <- get_video video_uri ;;
  hash <- try_except (hash_of_video vimeo_video) (fun _ => ret "") ;;
  ret hash.

End Client.

(** ** Observations on a run *)

(** The state in which a call starts on a fresh process: nothing sent yet, no
    file in the working directory. *)
Definition world_of (v : Vimeo) : world :=
  {| self := v; trace := []; files := ∅ |}.

Definition is_head (e : event) : bool :=
  match e with
  | EvRequest r => match rq_method r with HEAD => true | _ => false end
  | _ => false
  end.

(** Whether one of the events is a HEAD request. *)
Definition issues_head (evs : list event) : bool := existsb is_head evs.

(** The JSON body of the last POST request among the events. *)
Fixpoint posted_body (evs : list event) : option pyval :=
  match evs with
  | [] => None
  | e :: evs' =>
      match posted_body evs' with
      | Some b => Some b
      | None =>
          match e with
          | EvRequest r =>
              match rq_method r with POST => rq_json r | _ => None end
          | _ => None
          end
      end
  end.

(** [body["upload"]["size"]]. *)
Definition upload_size (body : pyval) : result pyval :=
  match getitem body "upload" with
  | Ok u => getitem u "size"
  | Raise e => Raise e
  end.

(** What [_set_response_code] leaves in the field: a falsy status ([None] or
    [0]) is stored as [None]. *)
Definition recorded (status_code : option Z) : option Z :=
  match status_code with
  | Some z => if Z.eqb z 0 then None else Some z
  | None => None
  end.

(** A computation that leaves [response_code] alone, whatever its outcome. *)
Definition keeps_status {A : Type} (m : M A) : Prop :=
  ∀ w, response_code (self (fst (m w))) = response_code (self w).

(** The SDK client [_get_or_set_py_vimeo_client] hands out when the
    credentials are there: the memoized one, or a new one. *)
Definition the_client (v : Vimeo) : VimeoClient :=
  match py_vimeo_client v with
  | Some c => c
  | None => mk_VimeoClient (ACCESS_TOKEN v) (CLIENT_ID v) (CLIENT_SECRET v)
  end.

(** Whether a dict has all of the keys. *)
Definition has_keys (ks : list string) (v : pyval) : bool :=
  match v with
  | PDict d => forallb (fun k => match assoc k d with Some _ => true | None => false end) ks
  | _ => false
  end.

(** *** The video hash, step by step

    The code reads the hash off the video record in three steps, each of
    which may come up empty: the embed HTML field of the record, the [src]
    attribute of the iframe in that HTML, and the values of the [h] parameter
    in the query string of that URL once every [&amp;] in it has been replaced
    by [&]. *)

(** The embed HTML field, when the record has one. *)
Definition embed_markup (video : pyval) : option pyval :=
  match getitem video "embed" with
  | Ok embed =>
      match getitem embed "html" with
      | Ok html => Some html
      | Raise _ => None
      end
  | Raise _ => None
  end.

(** The [src] of the first iframe, when the HTML parses and has one. *)
Definition iframe_src (E : env) (html : pyval) : option string :=
  match bs4_parse E html with
  | Ok soup =>
      match soup_find "iframe" soup with
      | Some t => assoc "src" (tag_attrs t)
      | None => None
      end
  | Raise _ => None
  end.

(** The values of the [h] parameter of the query string of a URL, after the
    replacement of [&amp;] by [&]. *)
Definition h_values (E : env) (src : string) : list string :=
  match urlparse_query E (replace "&amp;" "&" src) with
  | Ok query =>
      match parse_qs E query with
      | Ok params =>
          match assoc "h" params with
          | Some values => values
          | None => []
          end
      | Raise _ => []
      end
  | Raise _ => []
  end.

(** The first value of [h], and the empty string when a step came up empty. *)
Definition expected_hash (E : env) (video : pyval) : string :=
  match embed_markup video with
  | Some html =>
      match iframe_src E html with
      | Some src =>
          match h_values E src with
          | v :: _ => v
          | [] => ""
          end
      | None => ""
      end
  | None => ""
  end.

(** The status of the answer to the request that ends the trace. *)
Definition last_status (E : env) (tr : list event) : option Z :=
  match reverse tr with
  | EvRequest r :: before => Some (status_code (remote E (reverse before) r))
  | _ => None
  end.

(** A computation after which [response_code] holds the status of the answer
    to the last request sent, whatever the outcome of the computation. *)
Definition records_status {A : Type} (E : env) (m : M A) : Prop :=
  ∀ w, response_code (self (fst (m w)))
       = recorded (last_status E (trace (fst (m w)))).

(** The events a call added to the trace. *)
Definition events_since (w w' : world) : list event :=
  drop (length (trace w)) (trace w').

(** *** The video hash as a relation

    The same three steps, stated on the data and without the lookup
    functions of the code: what it is for a dict to bind a key, for a tag to
    be the first of its name, and for a URL to be another one with its
    [&amp;] replaced. *)

(** [d] binds [k] to [x]: the first pair of [d] with key [k] is [(k, x)]. *)
Inductive binds {A : Type} (k : string) : list (string * A) -> A -> Prop :=
| binds_here (x : A) (d : list (string * A)) : binds k ((k, x) :: d) x
| binds_later (k' : string) (y : A) (d : list (string * A)) (x : A) :
    k' ≠ k -> binds k d x -> binds k ((k', y) :: d) x.

(** No pair of [d] has key [k]. *)
Definition unbound {A : Type} (k : string) (d : list (string * A)) : Prop :=
  Forall (fun p => fst p ≠ k) d.

(** The value [v] is a dict and has [x] under the key [k]. *)
Definition field (v : pyval) (k : string) (x : pyval) : Prop :=
  ∃ d, v = PDict d ∧ binds k d x.

(** [t] is the first tag of the document whose name is [name]. *)
Inductive first_tag (name : string) : list bs4_tag -> bs4_tag -> Prop :=
| first_tag_here (t : bs4_tag) (soup : list bs4_tag) :
    tag_name t = name -> first_tag name (t :: soup) t
| first_tag_later (t' : bs4_tag) (soup : list bs4_tag) (t : bs4_tag) :
    tag_name t' ≠ name -> first_tag name soup t -> first_tag name (t' :: soup) t.

(** The five characters [&amp;] in front of [rest]. *)
Definition amp_entity (rest : string) : string :=
  String "&" (String "a" (String "m" (String "p" (String ";" rest)))).

(** [s'] is [s] with every [&amp;] replaced by [&], reading from the left. *)
Inductive amp_unescaped : string -> string -> Prop :=
| amp_unescaped_nil : amp_unescaped EmptyString EmptyString
| amp_unescaped_entity (s s' : string) :
    amp_unescaped s s' -> amp_unescaped (amp_entity s) (String "&" s')
| amp_unescaped_char (c : ascii) (s s' : string) :
    (∀ rest, String c s ≠ amp_entity rest) ->
    amp_unescaped s s' -> amp_unescaped (String c s) (String c s').

(** [html] is the embed HTML field of the record. *)
Definition embed_html_of (video html : pyval) : Prop :=
  ∃ embed, field video "embed" embed ∧ field embed "html" html.

(** The HTML parses and [src] is the [src] attribute of its first iframe. *)
Definition iframe_src_of (E : env) (html : pyval) (src : string) : Prop :=
  ∃ soup t,
    bs4_parse E html = Ok soup
    ∧ first_tag "iframe" soup t
    ∧ binds "src" (tag_attrs t) src.

(** With its [&amp;] replaced by [&], the URL parses, its query string parses
    and has the values [values] for the parameter [h]. *)
Definition h_values_of (E : env) (src : string) (values : list string) : Prop :=
  ∃ src' query params,
    amp_unescaped src src'
    ∧ urlparse_query E src' = Ok query
    ∧ parse_qs E query = Ok params
    ∧ binds "h" params values.

(** Every step succeeds and [h] is the first value of the parameter. *)
Definition hash_found (E : env) (video : pyval) (h : string) : Prop :=
  ∃ html src rest,
    embed_html_of video html
    ∧ iframe_src_of E html src
    ∧ h_values_of E src (h :: rest).

(** ** The public interface as data

    One constructor for each public method of the class, with its arguments;
    [after] is the state in which a call leaves the object and the world. *)

Inductive call : Type :=
| Call_upload_video (file_path : string)
    (video_name video_description settings : option pyval)
| Call_upload_picture (video_uri file_path : string)
| Call_get_video (video_uri : string)
| Call_get_common_video_information (video_uri : string)
| Call_change_video_content_rating (video_uri : string) (rating : option string)
| Call_pull_video_from_url (download_url video_name : string)
    (folder_uri file_size settings logo_link : option pyval)
| Call_update_video_title (video_uri title : string)
| Call_delete_video (video_uri : string)
| Call_create_folder (folder_name : string)
| Call_update_folder_name (folder_uri new_folder_name : string)
| Call_delete_folder (folder_uri : string) (delete_all_videos_in_folder : option bool)
| Call_remove_video_from_folder (folder_uri video_uri : string)
| Call_add_video_to_folder (folder_uri video_uri : string)
| Call_tag_video (video_uri tag : string)
| Call_remove_tag_from_video (video_uri tag : string)
| Call_domain_whitelist_video (video_uri domain : string)
| Call_get_video_hash (video_uri : string).

Definition after (E : env) (c : call) (w : world) : world :=
  match c with
  | Call_upload_video f n d s => fst (upload_video E f n d s w)
  | Call_upload_picture v f => fst (upload_picture E v f w)
  | Call_get_video v => fst (get_video E v w)
  | Call_get_common_video_information v => fst (get_common_video_information E v w)
  | Call_change_video_content_rating v r => fst (change_video_content_rating E v r w)
  | Call_pull_video_from_url u n f z s l => fst (pull_video_from_url E u n f z s l w)
  | Call_update_video_title v t => fst (update_video_title E v t w)
  | Call_delete_video v => fst (delete_video E v w)
  | Call_create_folder n => fst (create_folder E n w)
  | Call_update_folder_name f n => fst (update_folder_name E f n w)
  | Call_delete_folder f a => fst (delete_folder E f a w)
  | Call_remove_video_from_folder f v => fst (remove_video_from_folder E f v w)
  | Call_add_video_to_folder f v => fst (add_video_to_folder E f v w)
  | Call_tag_video v t => fst (tag_video E v t w)
  | Call_remove_tag_from_video v t => fst (remove_tag_from_video E v t w)
  | Call_domain_whitelist_video v d => fst (domain_whitelist_video E v d w)
  | Call_get_video_hash v => fst (get_video_hash E v w)
  end.

(** The state after a sequence of calls on the same object, each call
    starting where the one before it ended, whether that one returned or
    raised. *)
Definition after_all (E : env) (cs : list call) (w : world) : world :=
  fold_left (fun w c => after E c w) cs w.

(** The two methods that go through the PyVimeo SDK. *)
Definition uses_sdk (c : call) : bool :=
  match c with
  | Call_upload_video _ _ _ _ | Call_upload_picture _ _ => true
  | _ => false
  end.

(** What [__init__] sets and no method assigns again. *)
Definition config_of (v : Vimeo) :
    option string * option string * option string * option Z
    * list (string * string) :=
  (ACCESS_TOKEN v, CLIENT_ID v, CLIENT_SECRET v, USER_ID v, REQUEST_HEADERS v).

(** A computation that leaves an observation [f] of the state as it found
    it, whatever its outcome. *)
Definition preserves {X A : Type} (f : world -> X) (m : M A) : Prop :=
  ∀ w, f (fst (m w)) = f w.

(** An observation that sees neither the trace nor the status field. *)
Definition framed {X : Type} (f : world -> X) : Prop :=
  (∀ e w, f (emit e w) = f w)
  ∧ (∀ o w, f (with_self (set_response_code_field o (self w)) w) = f w).

(** Whether a call downloads a file: [upload_picture] on a URL. *)
Definition downloads (c : call) : bool :=
  match c with
  | Call_upload_picture _ file_path => startswith file_path "http"
  | _ => false
  end.

(** The answer to the request that ends the trace. *)
Definition last_answer (E : env) (tr : list event) : option response :=
  match reverse tr with
  | EvRequest r :: before => Some (remote E (reverse before) r)
  | _ => None
  end.

(** The requests among the events, in order. *)
Definition requests_of (evs : list event) : list request :=
  omap (fun e => match e with EvRequest r => Some r | _ => None end) evs.

(** [c in s] for a character. *)
Fixpoint has_char (c : ascii) (s : string) : bool :=
  match s with
  | EmptyString => false
  | String c' s' => (Ascii.eqb c' c || has_char c s')%bool
  end.

(** [sep.join(l)]. *)
Fixpoint join (sep : string) (l : list string) : string :=
  match l with
  | [] => EmptyString
  | [x] => x
  | x :: l' => x +:+ sep +:+ join sep l'
  end.

(** ** Environments for concrete runs *)

(** A well-behaved service: every request is answered 200 with the record of
    video 42, the SDK calls succeed, downloads succeed. The HTML and URL
    parsers are small stand-ins that suffice for the embed codes below. *)

Definition embed_html : string :=
  "<iframe src='https://player.vimeo.com/video/42?h=abc123&amp;badge=0'></iframe>".

Definition video_record : pyval :=
  PDict [("uri", PStr "/videos/42");
         ("embed", PDict [("html", PStr embed_html)])].

Definition parse_stub (markup : pyval) : result (list bs4_tag) :=
  match markup with
  | PStr s =>
      if String.eqb s embed_html
      then Ok [mk_tag "iframe"
                 [("src", "https://player.vimeo.com/video/42?h=abc123&amp;badge=0")]]
      else Ok []
  | _ => Raise TypeError
  end.

Definition query_stub (url : string) : result string :=
  match split "?" url with
  | _ :: q :: _ => Ok q
  | _ => Ok ""
  end.

Definition pair_stub (kv : string) : option (string * list string) :=
  match split "=" kv with
  | [k; v] => if String.eqb v "" then None else Some (k, [v])
  | _ => None
  end.

Definition parse_qs_stub (query : string) : result (list (string * list string)) :=
  Ok (omap pair_stub (split "&" query)).

Definition picture_record : pyval :=
  PDict [("uri", PStr "/videos/42/pictures/7");
         ("link", PStr "https://i.vimeocdn.com/video/7");
         ("active", PBool true)].

Definition good_env : env :=
  {| remote := fun _ _ => mk_response 200 [] (Some video_record);
     sdk_upload := fun _ _ _ _ => Ok (PStr "/videos/42");
     sdk_upload_picture := fun _ _ _ _ _ => Ok picture_record;
     url_fetch := fun _ _ => None;
     fetch_leaves_file := fun _ _ => false;
     temp_name := fun _ => "/tmp/tmpa1b2c3";
     bs4_parse := parse_stub;
     urlparse_query := query_stub;
     parse_qs := parse_qs_stub |}.

(** The same service with an SDK whose picture upload fails. *)
Definition failing_upload_env : env :=
  {| remote := remote good_env;
     sdk_upload := fun _ _ _ _ => Raise (SdkError "upload failed");
     sdk_upload_picture := fun _ _ _ _ _ => Raise (SdkError "upload failed");
     url_fetch := url_fetch good_env;
     fetch_leaves_file := fetch_leaves_file good_env;
     temp_name := temp_name good_env;
     bs4_parse := bs4_parse good_env;
     urlparse_query := urlparse_query good_env;
     parse_qs := parse_qs good_env |}.

(** A service that answers every request 404 with a JSON error body. *)
Definition not_found_env : env :=
  {| remote := fun _ _ =>
       mk_response 404 [] (Some (PDict [("error", PStr "not found")]));
     sdk_upload := sdk_upload good_env;
     sdk_upload_picture := sdk_upload_picture good_env;
     url_fetch := url_fetch good_env;
     fetch_leaves_file := fetch_leaves_file good_env;
     temp_name := temp_name good_env;
     bs4_parse := bs4_parse good_env;
     urlparse_query := urlparse_query good_env;
     parse_qs := parse_qs good_env |}.

(** A service that answers every request 204 with an empty body, which does
    not decode as JSON. *)
Definition no_content_env : env :=
  {| remote := fun _ _ => mk_response 204 [] None;
     sdk_upload := sdk_upload good_env;
     sdk_upload_picture := sdk_upload_picture good_env;
     url_fetch := url_fetch good_env;
     fetch_leaves_file := fetch_leaves_file good_env;
     temp_name := temp_name good_env;
     bs4_parse := bs4_parse good_env;
     urlparse_query := urlparse_query good_env;
     parse_qs := parse_qs good_env |}.

(** A service whose answers carry a content length, spelled in lower case. *)
Definition sized_env : env :=
  {| remote := fun _ _ =>
       mk_response 200 [("content-type", "video/mp4"); ("content-length", "1048576")]
         (Some video_record);
     sdk_upload := sdk_upload good_env;
     sdk_upload_picture := sdk_upload_picture good_env;
     url_fetch := url_fetch good_env;
     fetch_leaves_file := fetch_leaves_file good_env;
     temp_name := temp_name good_env;
     bs4_parse := bs4_parse good_env;
     urlparse_query := urlparse_query good_env;
     parse_qs := parse_qs good_env |}.

(** A service that answers with a complete video record. *)
Definition complete_record : pyval :=
  PDict [("uri", PStr "/videos/42");
         ("transcode", PDict [("status", PStr "complete")]);
         ("is_playable", PBool true);
         ("link", PStr "https://vimeo.com/42");
         ("duration", PInt 180);
         ("width", PInt 1920);
         ("height", PInt 1080)].

Definition catalog_env : env :=
  {| remote := fun _ _ => mk_response 200 [] (Some complete_record);
     sdk_upload := sdk_upload good_env;
     sdk_upload_picture := sdk_upload_picture good_env;
     url_fetch := url_fetch good_env;
     fetch_leaves_file := fetch_leaves_file good_env;
     temp_name := temp_name good_env;
     bs4_parse := bs4_parse good_env;
     urlparse_query := urlparse_query good_env;
     parse_qs := parse_qs good_env |}.

(** A service whose embed code has the [&] of the iframe URL escaped twice,
    so that the [src] attribute still reads [&amp;] once the HTML is parsed. *)
Definition escaped_src : string :=
  "https://player.vimeo.com/video/42?badge=0&amp;h=abc".

Definition escaped_html : string :=
  "<iframe src='https://player.vimeo.com/video/42?badge=0&amp;amp;h=abc'></iframe>".

Definition escaped_record : pyval :=
  PDict [("uri", PStr "/videos/42");
         ("embed", PDict [("html", PStr escaped_html)])].

Definition escaped_parse_stub (markup : pyval) : result (list bs4_tag) :=
  match markup with
  | PStr s =>
      if String.eqb s escaped_html
      then Ok [mk_tag "iframe" [("src", escaped_src)]]
      else Ok []
  | _ => Raise TypeError
  end.

Definition escaped_env : env :=
  {| remote := fun _ _ => mk_response 200 [] (Some escaped_record);
     sdk_upload := sdk_upload good_env;
     sdk_upload_picture := sdk_upload_picture good_env;
     url_fetch := url_fetch good_env;
     fetch_leaves_file := fetch_leaves_file good_env;
     temp_name := temp_name good_env;
     bs4_parse := escaped_parse_stub;
     urlparse_query := urlparse_query good_env;
     parse_qs := parse_qs good_env |}.

(** A client with SDK credentials, and one with an access token only. *)
Definition full_client : Vimeo :=
  Vimeo_init (Some "token") (Some "id") (Some "secret") (Some 7).

Definition token_only_client : Vimeo :=
  Vimeo_init (Some "token") None None None.

(** The token-only client after a call that the service answered 404. *)
Definition world_after_404 : world :=
  fst (get_video not_found_env "/videos/42" (world_of token_only_client)).

(** * Properties *)

(** ** Strings *)

Lemma split_not_nil (sep : ascii) (s : string) : split sep s ≠ [].
Proof.
  destruct s as [|c s]; simpl; [discriminate|].
  destruct (Ascii.eqb c sep); [discriminate|].
  destruct (split sep s); discriminate.
Qed.

Lemma pop_ok (l : list string) : l ≠ [] → ∃ x, pop l = Ok x.
Proof.
  induction l as [|a l IH]; [congruence|]. intros _.
  destruct l as [|b l]; [by exists a|].
  destruct IH as [x Hx]; [discriminate|]. exists x. exact Hx.
Qed.

Lemma pop_split_slash (s : string) : pop (split "/" s) = Ok (basename s).
Proof.
  unfold basename.
  destruct (pop_ok _ (split_not_nil "/" s)) as [x ->]. reflexivity.
Qed.

(** The video id is always found: [split] never returns an empty list. *)
Lemma video_id_of_ok (video_uri : string) (w : world) :
  video_id_of video_uri w = (w, Ok (basename video_uri)).
Proof. unfold video_id_of, lift. by rewrite pop_split_slash. Qed.

Example split_video_uri : split "/" "/videos/42" = [""; "videos"; "42"].
Proof. reflexivity. Qed.

Example basename_url : basename "http://example.com/img/cover.png" = "cover.png".
Proof. reflexivity. Qed.

Example replace_amp :
  replace "&amp;" "&" "v?h=abc&amp;badge=0&amp;x" = "v?h=abc&badge=0&x".
Proof. reflexivity. Qed.

Example header_lookup_case :
  header_lookup "Content-Length" [("content-length", "1024")] = Some "1024".
Proof. reflexivity. Qed.

(** ** The status field *)

Lemma _set_response_code_spec (status_code : option Z) (w : world) :
  _set_response_code status_code w =
    (with_self (set_response_code_field (recorded status_code) (self w)) w, Ok tt).
Proof.
  unfold _set_response_code, recorded.
  destruct status_code as [z|]; [|reflexivity].
  destruct (Z.eqb z 0); reflexivity.
Qed.

Arguments video_id_of : simpl never.
Arguments _set_response_code : simpl never.

(** Unfolds the monad and runs the steps whose outcome is known. *)
Ltac run :=
  unfold bind, ret, lift, raise, get_REQUEST_HEADERS, get_USER_ID,
    requests_get, requests_head, requests_post, requests_put, requests_patch,
    requests_delete, requests_send;
  repeat (rewrite ?video_id_of_ok, ?_set_response_code_spec; simpl).

(** ** Tagging *)

(** C8: [tag_video("/videos/42", "demo")] sends exactly one request, a PUT to
    https://api.vimeo.com/videos/42/tags/demo, and returns the status code of
    the answer unchanged. *)
Theorem tag_video_demo (E : env) (w : world) :
  let req := mk_request PUT "https://api.vimeo.com/videos/42/tags/demo"
               (Some (REQUEST_HEADERS (self w))) None None in
  let resp := remote E (trace w) req in
  ∃ w', tag_video E "/videos/42" "demo" w = (w', Ok (status_code resp))
        ∧ trace w' = trace w ++ [EvRequest req].
Proof.
  intros req resp. unfold tag_video. run.
  eexists. split; reflexivity.
Qed.

(** ** Content ratings *)

Lemma str_in_elem_of (x : string) (l : list string) :
  str_in x l = true ↔ x ∈ l.
Proof.
  unfold str_in. rewrite existsb_exists, list_elem_of_In. split.
  - intros [y [Hy Heq]]. apply String.eqb_eq in Heq. by subst.
  - intros Hx. exists x. split; [done|]. apply String.eqb_refl.
Qed.

(** C4: a rating outside the closed set makes [change_video_content_rating]
    raise [NotImplementedError] with the state untouched, so that no request
    is sent; a rating inside the set sends exactly one PATCH request and the
    call does not raise [NotImplementedError]. *)
Theorem change_video_content_rating_guard (E : env) (w : world)
    (video_uri rating : string) :
  let allowed :=
    ["violence"; "drugs"; "language"; "nudity"; "advertisement"; "safe"; "unrated"] in
  (rating ∉ allowed →
     change_video_content_rating E video_uri (Some rating) w
       = (w, Raise NotImplementedError))
  ∧ (rating ∈ allowed →
     ∃ w' r,
       change_video_content_rating E video_uri (Some rating) w = (w', r)
       ∧ r ≠ Raise NotImplementedError
       ∧ trace w' = trace w ++
           [EvRequest
              (mk_request PATCH
                 ("https://api.vimeo.com/videos/" +:+ basename video_uri)
                 (Some (REQUEST_HEADERS (self w)))
                 (Some (PDict [("content_rating", PList [PStr rating])]))
                 None)]).
Proof.
  intros allowed. unfold change_video_content_rating. cbv zeta. cbn [kwarg].
  change content_ratings with allowed.
  destruct (str_in rating allowed) eqn:Hin; cbn [negb].
  - apply str_in_elem_of in Hin. split; [done|]. intros _.
    run. unfold response_json.
    destruct (rs_json (remote E _ _)); eexists _, _;
      (split; [reflexivity|]); by split.
  - split; [done|]. intros Hin'. apply str_in_elem_of in Hin'. congruence.
Qed.

Lemma change_video_content_rating_guard_witness :
  change_video_content_rating good_env "/videos/42" (Some "explicit")
      (world_of token_only_client)
    = (world_of token_only_client, Raise NotImplementedError)
  ∧ ∃ w' r,
      change_video_content_rating good_env "/videos/42" (Some "nudity")
          (world_of token_only_client) = (w', r)
      ∧ r ≠ Raise NotImplementedError
      ∧ trace w' = trace (world_of token_only_client) ++
          [EvRequest
             (mk_request PATCH
                ("https://api.vimeo.com/videos/" +:+ basename "/videos/42")
                (Some (REQUEST_HEADERS (self (world_of token_only_client))))
                (Some (PDict [("content_rating", PList [PStr "nudity"])]))
                None)].
Proof.
  split.
  - apply (change_video_content_rating_guard good_env
             (world_of token_only_client) "/videos/42" "explicit").
    apply (bool_decide_unpack _). vm_compute. exact I.
  - apply (change_video_content_rating_guard good_env
             (world_of token_only_client) "/videos/42" "nudity").
    apply (bool_decide_unpack _). vm_compute. exact I.
Defined.

(** ** Folder operations *)

Lemma delete_folder_returns_id (E : env) (w : world) (folder_uri : string)
    (delete_all_videos_in_folder : option bool) :
  ∃ w', delete_folder E folder_uri delete_all_videos_in_folder w = (w', Ok folder_uri).
Proof. unfold delete_folder. run. by eexists. Qed.

Lemma remove_video_from_folder_returns_id (E : env) (w : world)
    (folder_uri video_uri : string) :
  ∃ w', remove_video_from_folder E folder_uri video_uri w = (w', Ok folder_uri).
Proof. unfold remove_video_from_folder. run. by eexists. Qed.

(** [update_folder_name] decodes the body of the answer before it returns:
    the folder identifier comes back when the body is JSON, whatever it
    holds, and the decoding error comes back when it is not. *)
Lemma update_folder_name_outcome (E : env) (w : world)
    (folder_uri new_folder_name : string) :
  let resp :=
    remote E (trace w)
      (mk_request PATCH ("https://api.vimeo.com" +:+ folder_uri)
         (Some (REQUEST_HEADERS (self w)))
         (Some (PDict [("name", PStr new_folder_name)])) None) in
  snd (update_folder_name E folder_uri new_folder_name w)
    = match rs_json resp with
      | Some _ => Ok folder_uri
      | None => Raise JSONDecodeError
      end.
Proof.
  intros resp. unfold update_folder_name. run. unfold response_json.
  fold resp. destruct (rs_json resp); reflexivity.
Qed.

(** C7, at an answer without a JSON body: [update_folder_name] raises the
    decoding error of [response.json()] instead of returning the folder
    identifier it was given; [delete_folder] and [remove_video_from_folder]
    return the identifier on the same answer. *)
Theorem update_folder_name_raises_on_empty_body :
  snd (update_folder_name no_content_env "/users/7/projects/90210" "Talks"
         (world_of token_only_client))
    = Raise JSONDecodeError
  ∧ snd (delete_folder no_content_env "/users/7/projects/90210" None
           (world_of token_only_client))
    = Ok "/users/7/projects/90210"
  ∧ snd (remove_video_from_folder no_content_env "/users/7/projects/90210"
           "/videos/42" (world_of token_only_client))
    = Ok "/users/7/projects/90210".
Proof. repeat split; reflexivity. Qed.

(** ** Uploads *)

Lemma keeps_status_ret {A : Type} (a : A) : keeps_status (ret a).
Proof. intros w. reflexivity. Qed.

Lemma keeps_status_bind {A B : Type} (m : M A) (k : A → M B) :
  keeps_status m → (∀ a, keeps_status (k a)) → keeps_status (bind m k).
Proof.
  intros Hm Hk w. unfold bind. specialize (Hm w).
  destruct (m w) as [w' [a|e]]; simpl in *; [|done].
  by rewrite Hk.
Qed.

Lemma keeps_status_urlretrieve (E : env) (url filename : string) :
  keeps_status (urlretrieve E url filename).
Proof.
  intros w. unfold urlretrieve. cbv zeta.
  destruct (url_fetch E (trace w) url); [|done].
  by destruct (fetch_leaves_file E (trace w) url).
Qed.

Lemma keeps_status_get_client : keeps_status _get_or_set_py_vimeo_client.
Proof.
  intros w. unfold _get_or_set_py_vimeo_client. cbv zeta.
  destruct (_ || _)%bool; [done|]. by destruct (py_vimeo_client (self w)).
Qed.

Lemma keeps_status_client_upload_picture (E : env) (c : VimeoClient)
    (video_uri file_path : string) (activate : bool) :
  keeps_status (client_upload_picture E c video_uri file_path activate).
Proof. intros w. reflexivity. Qed.

Lemma keeps_status_os_path_exists (path : string) :
  keeps_status (os_path_exists path).
Proof. intros w. reflexivity. Qed.

Lemma keeps_status_os_remove (path : string) : keeps_status (os_remove path).
Proof. intros w. unfold os_remove. by destruct (bool_decide _). Qed.

(** C2, for [upload_picture]: the method never writes [response_code]; after
    any call, returning or raising, the field holds what it held before. *)
Theorem upload_picture_keeps_response_code (E : env) (w : world)
    (video_uri file_path : string) :
  response_code (self (fst (upload_picture E video_uri file_path w)))
    = response_code (self w).
Proof.
  revert w. change (keeps_status (upload_picture E video_uri file_path)).
  unfold upload_picture.
  apply keeps_status_bind.
  { destruct (startswith file_path "http"); [|apply keeps_status_ret].
    apply keeps_status_bind; [apply keeps_status_urlretrieve|].
    intros a. apply keeps_status_ret. }
  intros lf. apply keeps_status_bind; [apply keeps_status_get_client|].
  intros client.
  apply keeps_status_bind; [apply keeps_status_client_upload_picture|].
  intros upload_response.
  apply keeps_status_bind; [|intros _; apply keeps_status_ret].
  destruct (fst lf) as [name|]; [|apply keeps_status_ret].
  destruct (negb (String.eqb name "")); [|apply keeps_status_ret].
  apply keeps_status_bind; [apply keeps_status_os_path_exists|].
  intros [|]; [apply keeps_status_os_remove|apply keeps_status_ret].
Qed.

Example world_after_404_status : response_code (self world_after_404) = Some 404.
Proof. reflexivity. Qed.

(** A picture upload that succeeds right after a call answered 404 leaves
    404 in the field. *)
Example upload_picture_stale_status :
  let run := upload_picture good_env "/videos/42" "cover.png"
               (with_self (set_response_code_field (Some 404) full_client)
                  (world_of full_client)) in
  snd run = Ok picture_record ∧ response_code (self (fst run)) = Some 404.
Proof. split; reflexivity. Qed.

(** C9, as amended: when [upload_video] returns, the field is 200 for a truthy
    video URI and [None] otherwise; when it raises, for want of SDK
    credentials or because the SDK upload raised, the field is left as it
    was. No other value is ever written. *)
Theorem upload_video_status (E : env) (w : world) (file_path : string)
    (video_name video_description settings : option pyval) :
  match upload_video E file_path video_name video_description settings w with
  | (w', Ok video_uri) =>
      response_code (self w') = if truthy video_uri then Some 200 else None
  | (w', Raise _) => response_code (self w') = response_code (self w)
  end.
Proof.
  unfold upload_video, bind, ret, _get_or_set_py_vimeo_client, client_upload.
  cbv zeta.
  destruct (negb (truthy_ostr (CLIENT_ID (self w)))
            || negb (truthy_ostr (CLIENT_SECRET (self w))))%bool; [reflexivity|].
  destruct (py_vimeo_client (self w)) as [c|];
    match goal with
    | |- context [sdk_upload E ?t ?c ?f ?d] => destruct (sdk_upload E t c f d) as [v|e]
    end; try reflexivity;
    rewrite _set_response_code_spec; simpl; destruct (truthy v); reflexivity.
Qed.

(** C9, as stated, fails when the call raises: a client without SDK
    credentials whose last call was answered 404 still shows 404 after
    [upload_video]. *)
Lemma upload_video_status_after_raise :
  ¬ (∀ (E : env) (w : world) (file_path : string)
       (video_name video_description settings : option pyval),
       let run := upload_video E file_path video_name video_description settings w in
       response_code (self (fst run))
         = match snd run with
           | Ok video_uri => if truthy video_uri then Some 200 else None
           | Raise _ => None
           end).
Proof.
  intros H.
  specialize (H good_env world_after_404 "talk.mp4" None None None).
  vm_compute in H. discriminate H.
Qed.

(** ** The downloaded picture *)

Lemma downloaded_file_present (name : string) (fs : gset string) :
  bool_decide (name ∈ {[name]} ∪ fs) = true.
Proof. apply bool_decide_eq_true_2, elem_of_union_l, elem_of_singleton. reflexivity. Qed.

(** When the download and the upload both succeed and the URL ends in a file
    name, the downloaded file is gone when [upload_picture] returns. *)
Lemma upload_picture_cleans_up_on_success (E : env) (w : world)
    (video_uri url : string) (r : pyval) :
  startswith url "http" = true →
  basename url ≠ "" →
  snd (upload_picture E video_uri url w) = Ok r →
  basename url ∉ files (fst (upload_picture E video_uri url w)).
Proof.
  intros Hhttp Hname. apply String.eqb_neq in Hname.
  unfold upload_picture, bind, ret, urlretrieve, _get_or_set_py_vimeo_client,
    client_upload_picture, os_path_exists, os_remove.
  rewrite Hhttp, Hname. cbv zeta.
  destruct (url_fetch E (trace w) url); simpl;
    [by destruct (fetch_leaves_file E (trace w) url)|].
  destruct (_ || _)%bool; simpl; [discriminate|].
  destruct (py_vimeo_client (self w)); simpl;
    match goal with
    | |- context [sdk_upload_picture E ?t ?c ?v ?f ?a] =>
        destruct (sdk_upload_picture E t c v f a)
    end; simpl; try discriminate;
    repeat (rewrite ?Hname, ?downloaded_file_present; simpl);
    intros _; apply not_elem_of_difference; right; by apply elem_of_singleton.
Qed.

(** When the download succeeds and the SDK upload raises, [upload_picture]
    raises the same exception and the downloaded file is still there. *)
Lemma upload_picture_leak_on_failure (E : env) (w : world)
    (video_uri url : string) (e : exn) :
  startswith url "http" = true →
  basename url ≠ "" →
  url_fetch E (trace w) url = None →
  truthy_ostr (CLIENT_ID (self w)) = true →
  truthy_ostr (CLIENT_SECRET (self w)) = true →
  sdk_upload_picture E (trace w ++ [EvUrlRetrieve url (basename url)])
    (the_client (self w)) video_uri (basename url) true = Raise e →
  snd (upload_picture E video_uri url w) = Raise e
  ∧ basename url ∈ files (fst (upload_picture E video_uri url w)).
Proof.
  intros Hhttp Hname Hfetch Hid Hsecret. apply String.eqb_neq in Hname.
  unfold upload_picture, bind, ret, urlretrieve, _get_or_set_py_vimeo_client,
    client_upload_picture, os_path_exists, os_remove, the_client.
  rewrite Hhttp, Hname, Hfetch. cbv zeta. simpl.
  rewrite Hid, Hsecret. simpl.
  destruct (py_vimeo_client (self w)); simpl; intros ->; simpl;
    (split; [reflexivity|]); apply elem_of_union_l; by apply elem_of_singleton.
Qed.

(** C1, at a picture upload that raises: the call raises the SDK's exception
    and the file downloaded from the URL is still in the working directory;
    no removal was attempted. A client without SDK credentials leaves the
    download behind in the same way, and so does a URL that ends in a slash
    even when the upload succeeds. *)
Theorem upload_picture_leaves_download_when_upload_raises :
  let url := "http://example.com/img/cover.png" in
  let run := upload_picture failing_upload_env "/videos/42" url
               (world_of full_client) in
  snd run = Raise (SdkError "upload failed")
  ∧ files (fst run) = {[ "cover.png" ]}
  ∧ trace (fst run) =
      [EvUrlRetrieve url "cover.png";
       EvSdkUploadPicture (mk_VimeoClient (Some "token") (Some "id") (Some "secret"))
         "/videos/42" "cover.png" true].
Proof. split; [reflexivity|]. split; reflexivity. Qed.

Example upload_picture_removes_download :
  let run := upload_picture good_env "/videos/42" "http://example.com/img/cover.png"
               (world_of full_client) in
  snd run = Ok picture_record ∧ files (fst run) = ∅.
Proof. split; reflexivity. Qed.

Example upload_picture_leak_without_credentials :
  let run := upload_picture good_env "/videos/42" "http://example.com/img/cover.png"
               (world_of token_only_client) in
  snd run = Raise NotImplementedError ∧ files (fst run) = {[ "cover.png" ]}.
Proof. split; reflexivity. Qed.

Example upload_picture_leak_on_directory_url :
  let run := upload_picture good_env "/videos/42" "http://example.com/img/"
               (world_of full_client) in
  snd run = Ok picture_record ∧ files (fst run) = {[ "/tmp/tmpa1b2c3" ]}.
Proof. split; reflexivity. Qed.

(** ** Pulling a video from a URL *)

Lemma events_since_app (w w' : world) (evs : list event) :
  trace w' = trace w ++ evs → events_since w w' = evs.
Proof. intros H. unfold events_since. rewrite H. apply drop_app_length. Qed.

(** The requests of one call of [pull_video_from_url]: a HEAD request to the
    download URL when the size is falsy, then the POST request whose body is
    the settings when they are truthy and the default body otherwise. *)
Lemma pull_video_trace (E : env) (w : world) (download_url video_name : string)
    (folder_uri file_size settings logo_link : option pyval) :
  let size := kwarg PNone file_size in
  let head := mk_request HEAD download_url None None (Some true) in
  let size' :=
    if truthy size then size
    else content_length_or_zero (remote E (trace w) head) in
  let data :=
    if truthy (kwarg (PDict []) settings) then kwarg (PDict []) settings
    else pull_video_default_data download_url video_name (kwarg PNone folder_uri)
           size' (kwarg (PStr "") logo_link) in
  trace (fst (pull_video_from_url E download_url video_name folder_uri file_size
                settings logo_link w))
    = trace w ++ (if truthy size then [] else [EvRequest head])
        ++ [EvRequest (mk_request POST "https://api.vimeo.com/me/videos"
                         (Some (REQUEST_HEADERS (self w))) (Some data) None)].
Proof.
  intros size head size' data. unfold pull_video_from_url. cbv zeta.
  subst size' data. fold size.
  destruct (truthy size); cbn [negb];
    destruct (truthy (kwarg (PDict []) settings)); cbn [negb];
    run; unfold response_json;
    match goal with
    | |- context [rs_json ?r] => destruct (rs_json r) as [body|]
    end; simpl; rewrite <- ?app_assoc; try reflexivity;
    destruct (getitem body "uri"); simpl; rewrite <- ?app_assoc; reflexivity.
Qed.

(** C3, as amended: [pull_video_from_url] sends a HEAD request exactly when
    the size it is given is falsy, that is left out, [None] or [0]. After a
    HEAD answer without a Content-Length header the default body carries
    size [0]; with a truthy size no HEAD request is sent and the default body
    carries the caller's size. *)
Theorem pull_video_head_iff_falsy_size (E : env) (w : world)
    (download_url video_name : string)
    (folder_uri file_size settings logo_link : option pyval) :
  let size := kwarg PNone file_size in
  let run := pull_video_from_url E download_url video_name folder_uri file_size
               settings logo_link w in
  let evs := events_since w (fst run) in
  let head := mk_request HEAD download_url None None (Some true) in
  issues_head evs = negb (truthy size)
  ∧ (truthy size = false →
     header_lookup "Content-Length" (rs_headers (remote E (trace w) head)) = None →
     truthy (kwarg (PDict []) settings) = false →
     ∃ body, posted_body evs = Some body ∧ upload_size body = Ok (PInt 0))
  ∧ (truthy size = true →
     issues_head evs = false
     ∧ (truthy (kwarg (PDict []) settings) = false →
        ∃ body, posted_body evs = Some body ∧ upload_size body = Ok size)).
Proof.
  intros size run evs head. subst evs run.
  rewrite (events_since_app _ _ _ (pull_video_trace E w download_url video_name
             folder_uri file_size settings logo_link)).
  fold size head. split; [|split].
  - destruct (truthy size); reflexivity.
  - intros -> Hlen ->. simpl. eexists. split; [reflexivity|].
    unfold content_length_or_zero. fold head. rewrite Hlen. reflexivity.
  - intros Hsize. rewrite Hsize. split; [reflexivity|].
    intros ->. simpl. eexists. split; reflexivity.
Qed.

Lemma pull_video_head_iff_falsy_size_witness :
  (∃ body,
     posted_body
       (events_since (world_of token_only_client)
          (fst (pull_video_from_url good_env "https://example.com/talk.mp4" "Talk"
                  None None None None (world_of token_only_client))))
       = Some body
     ∧ upload_size body = Ok (PInt 0))
  ∧ issues_head
      (events_since (world_of token_only_client)
         (fst (pull_video_from_url good_env "https://example.com/talk.mp4" "Talk"
                 None (Some (PInt 1024)) None None (world_of token_only_client))))
    = false.
Proof.
  split.
  - apply (pull_video_head_iff_falsy_size good_env (world_of token_only_client)
             "https://example.com/talk.mp4" "Talk" None None None None);
      reflexivity.
  - apply (pull_video_head_iff_falsy_size good_env (world_of token_only_client)
             "https://example.com/talk.mp4" "Talk" None (Some (PInt 1024)) None None).
    reflexivity.
Defined.

(** C3, as stated, fails for an explicit size of [0]: the caller supplied a
    size and the HEAD request is sent all the same. *)
Lemma pull_video_head_with_explicit_zero_size :
  ¬ (∀ (E : env) (w : world) (download_url video_name : string)
       (folder_uri file_size settings logo_link : option pyval),
       issues_head
         (events_since w
            (fst (pull_video_from_url E download_url video_name folder_uri
                    file_size settings logo_link w))) = true
       ↔ (file_size = None ∨ file_size = Some PNone)).
Proof.
  intros H.
  destruct (H good_env (world_of token_only_client)
              "https://example.com/talk.mp4" "Talk" None (Some (PInt 0)) None None)
    as [Hhead _].
  destruct (Hhead eq_refl) as [Hnone|Hnone]; discriminate Hnone.
Qed.

Example pull_video_explicit_zero_size_trace :
  events_since (world_of token_only_client)
    (fst (pull_video_from_url good_env "https://example.com/talk.mp4" "Talk"
            None (Some (PInt 0)) None None (world_of token_only_client)))
  = [EvRequest (mk_request HEAD "https://example.com/talk.mp4" None None (Some true));
     EvRequest
       (mk_request POST "https://api.vimeo.com/me/videos"
          (Some (REQUEST_HEADERS token_only_client))
          (Some (pull_video_default_data "https://example.com/talk.mp4" "Talk"
                   PNone (PInt 0) (PStr "")))
          None)].
Proof. reflexivity. Qed.

(** ** The settings override *)

Lemma events_since_same (w : world) : events_since w w = [].
Proof. unfold events_since. apply drop_all. Qed.

(** Without SDK credentials [upload_video] raises before anything is sent. *)
Lemma upload_video_without_credentials (E : env) (w : world) (file_path : string)
    (video_name video_description settings : option pyval) :
  (truthy_ostr (CLIENT_ID (self w)) && truthy_ostr (CLIENT_SECRET (self w)))%bool
    = false →
  upload_video E file_path video_name video_description settings w
    = (w, Raise NotImplementedError).
Proof.
  intros Hcred. unfold upload_video, bind, _get_or_set_py_vimeo_client. cbv zeta.
  rewrite <- negb_andb, Hcred. reflexivity.
Qed.

(** With SDK credentials [upload_video] makes one SDK call, whose data is the
    settings when they are truthy and the default data otherwise. *)
Lemma upload_video_trace (E : env) (w : world) (file_path : string)
    (video_name video_description settings : option pyval) :
  (truthy_ostr (CLIENT_ID (self w)) && truthy_ostr (CLIENT_SECRET (self w)))%bool
    = true →
  let data :=
    if truthy (kwarg (PDict []) settings) then kwarg (PDict []) settings
    else upload_video_default_data (kwarg PNone video_name)
           (kwarg PNone video_description) in
  trace (fst (upload_video E file_path video_name video_description settings w))
    = trace w ++ [EvSdkUpload (the_client (self w)) file_path data].
Proof.
  intros Hcred data. subst data.
  unfold upload_video, bind, ret, _get_or_set_py_vimeo_client, client_upload,
    the_client.
  cbv zeta. rewrite <- negb_andb, Hcred. cbn [negb].
  destruct (truthy (kwarg (PDict []) settings)); cbn [negb];
    destruct (py_vimeo_client (self w)); simpl;
    match goal with
    | |- context [sdk_upload E ?t ?c ?f ?d] => destruct (sdk_upload E t c f d)
    end; try reflexivity; rewrite _set_response_code_spec; reflexivity.
Qed.

(** The body of the POST request of [pull_video_from_url]. *)
Lemma pull_video_posted_body (E : env) (w : world) (download_url video_name : string)
    (folder_uri file_size settings logo_link : option pyval) :
  let size := kwarg PNone file_size in
  let head := mk_request HEAD download_url None None (Some true) in
  let size' :=
    if truthy size then size
    else content_length_or_zero (remote E (trace w) head) in
  posted_body
    (events_since w
       (fst (pull_video_from_url E download_url video_name folder_uri file_size
               settings logo_link w)))
    = Some (if truthy (kwarg (PDict []) settings) then kwarg (PDict []) settings
            else pull_video_default_data download_url video_name
                   (kwarg PNone folder_uri) size' (kwarg (PStr "") logo_link)).
Proof.
  intros size head size'.
  rewrite (events_since_app _ _ _ (pull_video_trace E w download_url video_name
             folder_uri file_size settings logo_link)).
  fold size head size'. destruct (truthy size); reflexivity.
Qed.

(** C6: a non-empty settings dict given to [upload_video] or to
    [pull_video_from_url] is the body that is sent, as it is: every SDK
    upload call of the run carries it as its data (and there is exactly one
    such call when the SDK credentials are there), and the body of the POST
    request is the dict. Nothing of the default body is merged in. *)
Theorem settings_override_replaces_default (E : env) (w : world)
    (file_path download_url name : string)
    (video_name video_description folder_uri file_size logo_link : option pyval)
    (d : list (string * pyval)) :
  d ≠ [] →
  let up := upload_video E file_path video_name video_description
              (Some (PDict d)) w in
  let pull := pull_video_from_url E download_url name folder_uri file_size
                (Some (PDict d)) logo_link w in
  (∀ c p data, EvSdkUpload c p data ∈ events_since w (fst up) → data = PDict d)
  ∧ ((truthy_ostr (CLIENT_ID (self w)) && truthy_ostr (CLIENT_SECRET (self w)))%bool
       = true →
     events_since w (fst up) = [EvSdkUpload (the_client (self w)) file_path (PDict d)])
  ∧ posted_body (events_since w (fst pull)) = Some (PDict d).
Proof.
  intros Hd up pull. subst up pull.
  assert (Htruthy : truthy (kwarg (PDict []) (Some (PDict d))) = true)
    by (destruct d; [congruence|reflexivity]).
  assert (Hup : (truthy_ostr (CLIENT_ID (self w))
                 && truthy_ostr (CLIENT_SECRET (self w)))%bool = true →
                events_since w (fst (upload_video E file_path video_name
                                       video_description (Some (PDict d)) w))
                = [EvSdkUpload (the_client (self w)) file_path (PDict d)]).
  { intros Hcred. apply events_since_app.
    rewrite (upload_video_trace E w file_path video_name video_description
               (Some (PDict d)) Hcred).
    rewrite Htruthy. reflexivity. }
  split; [|split].
  - intros c p data.
    destruct (truthy_ostr (CLIENT_ID (self w))
              && truthy_ostr (CLIENT_SECRET (self w)))%bool eqn:Hcred.
    + rewrite (Hup eq_refl). intros Hin.
      apply list_elem_of_singleton in Hin. congruence.
    + rewrite upload_video_without_credentials by exact Hcred.
      cbn [fst]. rewrite events_since_same. intros Hin.
      by apply not_elem_of_nil in Hin.
  - exact Hup.
  - rewrite pull_video_posted_body, Htruthy. reflexivity.
Qed.

Lemma settings_override_replaces_default_witness :
  let d := [("name", PStr "x")] in
  let w := world_of full_client in
  events_since w (fst (upload_video good_env "talk.mp4" None None (Some (PDict d)) w))
    = [EvSdkUpload (the_client (self w)) "talk.mp4" (PDict d)]
  ∧ posted_body
      (events_since w
         (fst (pull_video_from_url good_env "https://example.com/talk.mp4" "Talk"
                 None None (Some (PDict d)) None w)))
    = Some (PDict d).
Proof.
  split.
  - apply (settings_override_replaces_default good_env (world_of full_client)
             "talk.mp4" "https://example.com/talk.mp4" "Talk"
             None None None None None [("name", PStr "x")]);
      [discriminate | reflexivity].
  - apply (settings_override_replaces_default good_env (world_of full_client)
             "talk.mp4" "https://example.com/talk.mp4" "Talk"
             None None None None None [("name", PStr "x")]).
    discriminate.
Defined.

Example override_drops_default_privacy :
  getitem (PDict [("name", PStr "x")]) "privacy" = Raise (KeyError "privacy")
  ∧ has_keys ["privacy"; "embed"] (PDict [("name", PStr "x")]) = false.
Proof. split; reflexivity. Qed.

(** C10: an empty settings dict is the same as no settings at all for
    [upload_video] and for [pull_video_from_url], and the body that is sent is
    then the whole default body, with its privacy, content rating and review
    page fields and, for [pull_video_from_url], its embed and folder fields;
    it is never an empty body. *)
Theorem empty_settings_use_default_body (E : env) (w : world)
    (file_path download_url name : string)
    (video_name video_description folder_uri file_size logo_link : option pyval) :
  let up := upload_video E file_path video_name video_description
              (Some (PDict [])) w in
  let pull := pull_video_from_url E download_url name folder_uri file_size
                (Some (PDict [])) logo_link w in
  up = upload_video E file_path video_name video_description None w
  ∧ pull = pull_video_from_url E download_url name folder_uri file_size None
             logo_link w
  ∧ ((truthy_ostr (CLIENT_ID (self w)) && truthy_ostr (CLIENT_SECRET (self w)))%bool
       = true →
     ∃ body,
       events_since w (fst up) = [EvSdkUpload (the_client (self w)) file_path body]
       ∧ body = upload_video_default_data (kwarg PNone video_name)
                  (kwarg PNone video_description)
       ∧ has_keys ["name"; "description"; "content_rating"; "privacy"; "review_page"]
           body = true)
  ∧ ∃ size body,
      posted_body (events_since w (fst pull)) = Some body
      ∧ body = pull_video_default_data download_url name (kwarg PNone folder_uri)
                 size (kwarg (PStr "") logo_link)
      ∧ has_keys ["name"; "description"; "upload"; "content_rating"; "privacy";
                  "review_page"; "embed"; "folder_uri"] body = true.
Proof.
  intros up pull. subst up pull.
  split; [reflexivity|]. split; [reflexivity|]. split.
  - intros Hcred. eexists. split; [|split; reflexivity].
    apply events_since_app.
    by rewrite (upload_video_trace E w file_path video_name video_description
                  (Some (PDict [])) Hcred).
  - eexists _, _. split; [|split; reflexivity].
    by rewrite pull_video_posted_body.
Qed.

Lemma empty_settings_use_default_body_witness :
  let w := world_of full_client in
  ∃ body,
    events_since w (fst (upload_video good_env "talk.mp4" (Some (PStr "Talk")) None
                           (Some (PDict [])) w))
      = [EvSdkUpload (the_client (self w)) "talk.mp4" body]
    ∧ body = upload_video_default_data (PStr "Talk") PNone
    ∧ has_keys ["name"; "description"; "content_rating"; "privacy"; "review_page"]
        body = true.
Proof.
  apply (empty_settings_use_default_body good_env (world_of full_client)
           "talk.mp4" "https://example.com/talk.mp4" "Talk"
           (Some (PStr "Talk")) None None None None).
  reflexivity.
Defined.

(** ** The video hash *)

(** The [try] block of [get_video_hash] with its handler computes the hash
    the specification describes, and never raises. *)
Lemma hash_of_video_handled (E : env) (video : pyval) (w : world) :
  try_except (hash_of_video E video) (fun _ => ret "") w
    = (w, Ok (expected_hash E video)).
Proof.
  unfold try_except, hash_of_video, expected_hash, embed_markup, iframe_src,
    h_values, bind, lift, ret.
  destruct (getitem video "embed") as [embed|]; [|reflexivity].
  destruct (getitem embed "html") as [html|]; [|reflexivity].
  destruct (bs4_parse E html) as [soup|]; [|reflexivity].
  destruct (soup_find "iframe" soup) as [t|]; [|reflexivity]. simpl.
  destruct (assoc "src" (tag_attrs t)) as [src|]; [|reflexivity]. simpl.
  destruct (urlparse_query E (replace "&amp;" "&" src)) as [query|]; [|reflexivity].
  destruct (parse_qs E query) as [params|]; [|reflexivity].
  unfold qs_getitem.
  destruct (assoc "h" params) as [[|v values]|]; reflexivity.
Qed.

(** *** The lookups of the code and the relations agree *)

Lemma binds_assoc {A : Type} (k : string) (d : list (string * A)) (x : A) :
  binds k d x ↔ assoc k d = Some x.
Proof.
  split.
  - induction 1 as [x d|k' y d x Hne _ IH]; simpl.
    + by rewrite String.eqb_refl.
    + destruct (String.eqb k k') eqn:Hk; [|exact IH].
      apply String.eqb_eq in Hk. congruence.
  - induction d as [|[k' y] d IH]; simpl; [discriminate|].
    destruct (String.eqb k k') eqn:Hk.
    + apply String.eqb_eq in Hk. subst k'. intros [= ->]. constructor.
    + apply String.eqb_neq in Hk. intros Hx. constructor; [congruence|by apply IH].
Qed.

Lemma unbound_assoc {A : Type} (k : string) (d : list (string * A)) :
  unbound k d ↔ assoc k d = None.
Proof.
  unfold unbound. induction d as [|[k' y] d IH]; simpl.
  - split; [done|constructor].
  - rewrite Forall_cons, IH. simpl. destruct (String.eqb k k') eqn:Hk.
    + apply String.eqb_eq in Hk. subst k'. split; [by intros [? _]|done].
    + apply String.eqb_neq in Hk. split; [by intros [_ ?]|]. split; congruence.
Qed.

Lemma field_getitem (v : pyval) (k : string) (x : pyval) :
  field v k x ↔ getitem v k = Ok x.
Proof.
  unfold field. split.
  - intros [d [-> Hb]]. simpl. apply binds_assoc in Hb. by rewrite Hb.
  - destruct v as [| | | | |d]; simpl; try discriminate.
    destruct (assoc k d) as [y|] eqn:Hy; [|discriminate].
    intros [= ->]. exists d. split; [done|]. by apply binds_assoc.
Qed.

Lemma first_tag_find (name : string) (soup : list bs4_tag) (t : bs4_tag) :
  first_tag name soup t ↔ soup_find name soup = Some t.
Proof.
  unfold soup_find. split.
  - induction 1 as [t soup Hn|t' soup t Hne _ IH]; simpl.
    + apply String.eqb_eq in Hn. by rewrite Hn.
    + apply String.eqb_neq in Hne. by rewrite Hne.
  - induction soup as [|t' soup IH]; simpl; [discriminate|].
    destruct (String.eqb (tag_name t') name) eqn:Hn.
    + apply String.eqb_eq in Hn. intros [= ->]. by constructor.
    + apply String.eqb_neq in Hn. intros Hf. constructor; [done|by apply IH].
Qed.

Lemma prefix_amp_entity (rest : string) :
  String.prefix "&amp;" (amp_entity rest) = true.
Proof. unfold amp_entity. simpl. by destruct rest. Qed.

Lemma prefix_cons (a : ascii) (p : string) (s : string) :
  String.prefix (String a p) s = true →
  ∃ s', s = String a s' ∧ String.prefix p s' = true.
Proof.
  destruct s as [|b s']; simpl; [discriminate|].
  destruct (ascii_dec a b) as [->|]; [|discriminate]. by exists s'.
Qed.

Lemma prefix_amp (s : string) :
  String.prefix "&amp;" s = true → ∃ rest, s = amp_entity rest.
Proof.
  intros H.
  apply prefix_cons in H as [s1 [-> H]]. apply prefix_cons in H as [s2 [-> H]].
  apply prefix_cons in H as [s3 [-> H]]. apply prefix_cons in H as [s4 [-> H]].
  apply prefix_cons in H as [s5 [-> H]]. by exists s5.
Qed.

Lemma replace_entity (rest : string) :
  replace "&amp;" "&" (amp_entity rest)
    = String "&" (replace "&amp;" "&" rest).
Proof.
  pose proof (prefix_amp_entity rest) as Hp.
  unfold replace, amp_entity in *. cbn [replace_from]. rewrite Hp. reflexivity.
Qed.

Lemma replace_char (c : ascii) (s : string) :
  (∀ rest, String c s ≠ amp_entity rest) →
  replace "&amp;" "&" (String c s) = String c (replace "&amp;" "&" s).
Proof.
  intros Hc. unfold replace. cbn [replace_from].
  destruct (String.prefix "&amp;" (String c s)) eqn:Hp; [|reflexivity].
  destruct (prefix_amp _ Hp) as [rest Hrest]. by destruct (Hc rest).
Qed.

(** The relation is the graph of the code's [replace]. *)
Lemma amp_unescaped_replace (s s' : string) :
  amp_unescaped s s' ↔ s' = replace "&amp;" "&" s.
Proof.
  split.
  - induction 1 as [|s s' _ IH|c s s' Hc _ IH].
    + reflexivity.
    + by rewrite replace_entity, IH.
    + by rewrite (replace_char _ _ Hc), IH.
  - intros ->.
    assert (Hlen : ∀ n s, (String.length s <= n)%nat →
                          amp_unescaped s (replace "&amp;" "&" s)).
    { clear s. induction n as [|n IH]; intros s Hn.
      - destruct s; [constructor|simpl in Hn; lia].
      - destruct s as [|c s]; [constructor|].
        destruct (String.prefix "&amp;" (String c s)) eqn:Hp.
        + destruct (prefix_amp _ Hp) as [rest Hrest]. rewrite Hrest.
          rewrite replace_entity. constructor. apply IH.
          apply (f_equal String.length) in Hrest. simpl in Hrest, Hn. lia.
        + assert (Hc : ∀ rest, String c s ≠ amp_entity rest).
          { intros rest Hrest. rewrite Hrest, prefix_amp_entity in Hp.
            discriminate Hp. }
          rewrite (replace_char _ _ Hc). constructor; [exact Hc|].
          apply IH. simpl in Hn. lia. }
    by apply (Hlen (String.length s)).
Qed.

Lemma embed_html_of_markup (video html : pyval) :
  embed_html_of video html ↔ embed_markup video = Some html.
Proof.
  unfold embed_html_of, embed_markup. split.
  - intros [embed [He Hh]].
    apply field_getitem in He. apply field_getitem in Hh. by rewrite He, Hh.
  - destruct (getitem video "embed") as [embed|] eqn:He; [|discriminate].
    destruct (getitem embed "html") as [x|] eqn:Hh; [|discriminate].
    intros [= ->]. exists embed. by split; apply field_getitem.
Qed.

Lemma iframe_src_of_src (E : env) (html : pyval) (src : string) :
  iframe_src_of E html src ↔ iframe_src E html = Some src.
Proof.
  unfold iframe_src_of, iframe_src. split.
  - intros [soup [t [Hp [Ht Hs]]]].
    apply first_tag_find in Ht. apply binds_assoc in Hs. by rewrite Hp, Ht.
  - destruct (bs4_parse E html) as [soup|] eqn:Hp; [|discriminate].
    destruct (soup_find "iframe" soup) as [t|] eqn:Ht; [|discriminate].
    intros Hs. exists soup, t.
    split; [done|]. split; [by apply first_tag_find|by apply binds_assoc].
Qed.

Lemma h_values_of_values (E : env) (src v : string) (rest : list string) :
  h_values_of E src (v :: rest) ↔ h_values E src = v :: rest.
Proof.
  unfold h_values_of, h_values. split.
  - intros [src' [query [params [Hu [Hq [Hp Hh]]]]]].
    apply amp_unescaped_replace in Hu. subst src'.
    apply binds_assoc in Hh. by rewrite Hq, Hp, Hh.
  - destruct (urlparse_query E (replace "&amp;" "&" src)) as [query|] eqn:Hq;
      [|discriminate].
    destruct (parse_qs E query) as [params|] eqn:Hp; [|discriminate].
    destruct (assoc "h" params) as [values|] eqn:Hh; [|discriminate].
    intros ->. exists (replace "&amp;" "&" src), query, params.
    split; [by apply amp_unescaped_replace|].
    split; [done|]. split; [done|by apply binds_assoc].
Qed.

(** The hash the code computes is the hash that is found, and the empty
    string when none is. *)
Lemma expected_hash_found (E : env) (video : pyval) :
  hash_found E video (expected_hash E video)
  ∨ (expected_hash E video = "" ∧ ¬ ∃ h, hash_found E video h).
Proof.
  unfold expected_hash, hash_found.
  destruct (embed_markup video) as [html|] eqn:Hm.
  - destruct (iframe_src E html) as [src|] eqn:Hs.
    + destruct (h_values E src) as [|v rest] eqn:Hv.
      * right. split; [done|].
        intros [h [html' [src' [rest [Hm' [Hs' Hv']]]]]].
        apply embed_html_of_markup in Hm'. rewrite Hm in Hm'.
        injection Hm' as <-.
        apply iframe_src_of_src in Hs'. rewrite Hs in Hs'. injection Hs' as <-.
        apply h_values_of_values in Hv'. congruence.
      * left. exists html, src, rest.
        split; [by apply embed_html_of_markup|].
        split; [by apply iframe_src_of_src|by apply h_values_of_values].
    + right. split; [done|].
      intros [h [html' [src' [rest [Hm' [Hs' _]]]]]].
      apply embed_html_of_markup in Hm'. rewrite Hm in Hm'.
      injection Hm' as <-.
      apply iframe_src_of_src in Hs'. congruence.
  - right. split; [done|].
    intros [h [html' [src' [rest [Hm' _]]]]].
    apply embed_html_of_markup in Hm'. congruence.
Qed.

(** C5, as amended: for every video record that [get_video] returns,
    [get_video_hash] returns without raising. The hash is read off the [src]
    of the first iframe of the embed HTML after every [&amp;] in it has been
    replaced by [&]: the result is the first value of the [h] parameter of the
    query string of that rewritten URL, and the empty string whenever a step
    fails: no embed HTML field, HTML that does not parse, no iframe, no
    [src], a URL or query string that does not parse, no [h] parameter. *)
Theorem get_video_hash_reads_unescaped_src (E : env) (w w' : world)
    (video_uri : string) (video : pyval) :
  get_video E video_uri w = (w', Ok video) →
  ∃ h,
    get_video_hash E video_uri w = (w', Ok h)
    ∧ (hash_found E video h ∨ (h = "" ∧ ¬ ∃ h', hash_found E video h')).
Proof.
  intros Hget. exists (expected_hash E video). split.
  - unfold get_video_hash, bind. rewrite Hget.
    rewrite hash_of_video_handled. reflexivity.
  - apply expected_hash_found.
Qed.

Lemma get_video_hash_reads_unescaped_src_witness :
  ∃ h,
    get_video_hash good_env "/videos/42" (world_of token_only_client)
      = (fst (get_video good_env "/videos/42" (world_of token_only_client)), Ok h)
    ∧ (hash_found good_env video_record h
       ∨ (h = "" ∧ ¬ ∃ h', hash_found good_env video_record h')).
Proof.
  apply (get_video_hash_reads_unescaped_src good_env (world_of token_only_client)).
  reflexivity.
Defined.

(** Builds the derivation that a concrete dict binds a key. *)
Ltac binds_literal :=
  repeat first [ apply binds_here | apply binds_later; [discriminate|] ].

(** C5, as stated, fails on an iframe URL whose [&] is still escaped: the
    query string of the [src] URL has the parameters [badge] and [amp;h] and
    no parameter [h], and [get_video_hash] returns [abc], not the empty
    string. *)
Lemma get_video_hash_finds_h_behind_amp :
  ¬ (∀ (E : env) (w w' : world) (video_uri : string) (video html : pyval)
       (src query : string) (params : list (string * list string)),
       get_video E video_uri w = (w', Ok video) →
       embed_html_of video html →
       iframe_src_of E html src →
       urlparse_query E src = Ok query →
       parse_qs E query = Ok params →
       unbound "h" params →
       get_video_hash E video_uri w = (w', Ok "")).
Proof.
  intros H.
  specialize (H escaped_env (world_of token_only_client)
                (fst (get_video escaped_env "/videos/42"
                        (world_of token_only_client)))
                "/videos/42" escaped_record (PStr escaped_html) escaped_src
                "badge=0&amp;h=abc" [("badge", ["0"]); ("amp;h", ["abc"])]).
  assert (Hrun : snd (get_video_hash escaped_env "/videos/42"
                        (world_of token_only_client)) = Ok "abc")
    by reflexivity.
  rewrite H in Hrun.
  - discriminate Hrun.
  - reflexivity.
  - exists (PDict [("html", PStr escaped_html)]).
    split; eexists; (split; [reflexivity|]); binds_literal.
  - exists [mk_tag "iframe" [("src", escaped_src)]],
      (mk_tag "iframe" [("src", escaped_src)]).
    split; [reflexivity|]. split; [by constructor|]. binds_literal.
  - reflexivity.
  - reflexivity.
  - repeat constructor; discriminate.
Qed.

Example get_video_hash_of_record :
  snd (get_video_hash good_env "/videos/42" (world_of token_only_client))
    = Ok "abc123"
  ∧ hash_found good_env video_record "abc123".
Proof.
  split; [reflexivity|].
  exists (PStr embed_html),
    "https://player.vimeo.com/video/42?h=abc123&amp;badge=0", [].
  split; [|split].
  - exists (PDict [("html", PStr embed_html)]).
    split; eexists; (split; [reflexivity|]); binds_literal.
  - eexists _, _. split; [reflexivity|]. split; [by constructor|]. binds_literal.
  - exists "https://player.vimeo.com/video/42?h=abc123&badge=0",
      "h=abc123&badge=0", [("h", ["abc123"]); ("badge", ["0"])].
    split; [by apply amp_unescaped_replace|].
    split; [reflexivity|]. split; [reflexivity|]. binds_literal.
Qed.

Example expected_hash_of_record : expected_hash good_env video_record = "abc123".
Proof. reflexivity. Qed.

Example expected_hash_without_embed :
  expected_hash good_env (PDict [("uri", PStr "/videos/42")]) = ""
  ∧ expected_hash good_env (PDict [("embed", PDict [("html", PNone)])]) = ""
  ∧ expected_hash good_env (PDict [("embed", PDict [("html", PStr "<p>gone</p>")])]) = "".
Proof. repeat split. Qed.

(** ** Which methods record the status *)

Lemma last_status_snoc (E : env) (tr : list event) (r : request) :
  last_status E (tr ++ [EvRequest r]) = Some (status_code (remote E tr r)).
Proof.
  unfold last_status. rewrite reverse_snoc, reverse_involutive. reflexivity.
Qed.

(** Closes a goal of [records_status] once the run has been unfolded: the
    steps after [_set_response_code] do not touch the state. *)
Ltac status_recorded :=
  unfold response_json, raise, ret, lift;
  repeat match goal with
         | |- context [match rs_json ?r with _ => _ end] =>
             destruct (rs_json r); simpl
         | |- context [match getitem ?v ?k with _ => _ end] =>
             destruct (getitem v k); simpl
         end;
  rewrite ?app_assoc, ?last_status_snoc; reflexivity.

Lemma get_video_records_status (E : env) (video_uri : string) :
  records_status E (get_video E video_uri).
Proof. intros w. unfold get_video. run. status_recorded. Qed.

Lemma update_video_title_records_status (E : env) (video_uri title : string) :
  records_status E (update_video_title E video_uri title).
Proof. intros w. unfold update_video_title. run. status_recorded. Qed.

Lemma delete_video_records_status (E : env) (video_uri : string) :
  records_status E (delete_video E video_uri).
Proof. intros w. unfold delete_video. run. status_recorded. Qed.

Lemma create_folder_records_status (E : env) (folder_name : string) :
  records_status E (create_folder E folder_name).
Proof. intros w. unfold create_folder. run. status_recorded. Qed.

Lemma update_folder_name_records_status (E : env)
    (folder_uri new_folder_name : string) :
  records_status E (update_folder_name E folder_uri new_folder_name).
Proof. intros w. unfold update_folder_name. run. status_recorded. Qed.

Lemma delete_folder_records_status (E : env) (folder_uri : string)
    (delete_all_videos_in_folder : option bool) :
  records_status E (delete_folder E folder_uri delete_all_videos_in_folder).
Proof. intros w. unfold delete_folder. run. status_recorded. Qed.

Lemma remove_video_from_folder_records_status (E : env)
    (folder_uri video_uri : string) :
  records_status E (remove_video_from_folder E folder_uri video_uri).
Proof. intros w. unfold remove_video_from_folder. run. status_recorded. Qed.

Lemma add_video_to_folder_records_status (E : env) (folder_uri video_uri : string) :
  records_status E (add_video_to_folder E folder_uri video_uri).
Proof. intros w. unfold add_video_to_folder. run. status_recorded. Qed.

Lemma tag_video_records_status (E : env) (video_uri tag : string) :
  records_status E (tag_video E video_uri tag).
Proof. intros w. unfold tag_video. run. status_recorded. Qed.

Lemma remove_tag_from_video_records_status (E : env) (video_uri tag : string) :
  records_status E (remove_tag_from_video E video_uri tag).
Proof. intros w. unfold remove_tag_from_video. run. status_recorded. Qed.

Lemma domain_whitelist_video_records_status (E : env) (video_uri domain : string) :
  records_status E (domain_whitelist_video E video_uri domain).
Proof. intros w. unfold domain_whitelist_video. run. status_recorded. Qed.

Lemma pull_video_from_url_records_status (E : env) (download_url video_name : string)
    (folder_uri file_size settings logo_link : option pyval) :
  records_status E (pull_video_from_url E download_url video_name folder_uri
                      file_size settings logo_link).
Proof.
  intros w. unfold pull_video_from_url. cbv zeta.
  destruct (negb (truthy (kwarg PNone file_size))); run; status_recorded.
Qed.

Lemma change_video_content_rating_records_status (E : env) (video_uri rating : string) :
  str_in rating content_ratings = true →
  records_status E (change_video_content_rating E video_uri (Some rating)).
Proof.
  intros Hin w. unfold change_video_content_rating. cbv zeta. cbn [kwarg].
  rewrite Hin. cbn [negb]. run. status_recorded.
Qed.

(** Steps that only compute on values leave the state as it is. *)
Lemma records_status_then_pure {A B : Type} (E : env) (m : M A) (k : A → M B) :
  records_status E m → (∀ a w, fst (k a w) = w) → records_status E (bind m k).
Proof.
  intros Hm Hk w. unfold bind. specialize (Hm w).
  destruct (m w) as [w' [a|e]]; simpl in *; [|done].
  by rewrite Hk.
Qed.

Lemma get_common_video_information_records_status (E : env) (video_uri : string) :
  records_status E (get_common_video_information E video_uri).
Proof.
  unfold get_common_video_information.
  apply records_status_then_pure; [apply get_video_records_status|].
  intros video w. unfold bind, lift, ret.
  repeat match goal with
         | |- context [match getitem ?v ?k with _ => _ end] =>
             destruct (getitem v k); simpl
         end; reflexivity.
Qed.

Lemma get_video_hash_records_status (E : env) (video_uri : string) :
  records_status E (get_video_hash E video_uri).
Proof.
  unfold get_video_hash.
  apply records_status_then_pure; [apply get_video_records_status|].
  intros video w. unfold bind. by rewrite hash_of_video_handled.
Qed.

(** ** What the methods leave alone *)

Lemma preserves_ret {X A : Type} (f : world → X) (a : A) : preserves f (ret a).
Proof. intros w. reflexivity. Qed.

Lemma preserves_raise {X A : Type} (f : world → X) (e : exn) :
  preserves f (raise (A:=A) e).
Proof. intros w. reflexivity. Qed.

Lemma preserves_lift {X A : Type} (f : world → X) (r : result A) :
  preserves f (lift r).
Proof. intros w. reflexivity. Qed.

Lemma preserves_bind {X A B : Type} (f : world → X) (m : M A) (k : A → M B) :
  preserves f m → (∀ a, preserves f (k a)) → preserves f (bind m k).
Proof.
  intros Hm Hk w. unfold bind. specialize (Hm w).
  destruct (m w) as [w' [a|e]]; simpl in *; [|done].
  by rewrite Hk.
Qed.

Lemma preserves_bind_ret {X A B : Type} (f : world → X) (a : A) (k : A → M B) :
  preserves f (k a) → preserves f (bind (ret a) k).
Proof. intros Hk w. exact (Hk w). Qed.

Lemma preserves_try_except {X A : Type} (f : world → X) (body : M A)
    (handler : exn → M A) :
  preserves f body → (∀ e, preserves f (handler e)) →
  preserves f (try_except body handler).
Proof.
  intros Hb Hh w. unfold try_except. specialize (Hb w).
  destruct (body w) as [w' [a|e]]; simpl in *; [done|].
  by rewrite Hh.
Qed.

Lemma preserves_get_REQUEST_HEADERS {X : Type} (f : world → X) :
  preserves f get_REQUEST_HEADERS.
Proof. intros w. reflexivity. Qed.

Lemma preserves_get_USER_ID {X : Type} (f : world → X) : preserves f get_USER_ID.
Proof. intros w. reflexivity. Qed.

Lemma preserves_video_id_of {X : Type} (f : world → X) (video_uri : string) :
  preserves f (video_id_of video_uri).
Proof. apply preserves_lift. Qed.

Lemma preserves_response_json {X : Type} (f : world → X) (r : response) :
  preserves f (response_json r).
Proof. intros w. unfold response_json. by destruct (rs_json r). Qed.

Lemma preserves_os_path_exists {X : Type} (f : world → X) (path : string) :
  preserves f (os_path_exists path).
Proof. intros w. reflexivity. Qed.

Lemma preserves_requests_send {X : Type} (f : world → X) (E : env) (r : request) :
  framed f → preserves f (requests_send E r).
Proof. intros [Hemit _] w. apply Hemit. Qed.

Lemma preserves_set_response_code {X : Type} (f : world → X) (o : option Z) :
  framed f → preserves f (_set_response_code o).
Proof. intros [_ Hstatus] w. rewrite _set_response_code_spec. apply Hstatus. Qed.

Lemma preserves_client_upload {X : Type} (f : world → X) (E : env)
    (c : VimeoClient) (file_path : string) (data : pyval) :
  framed f → preserves f (client_upload E c file_path data).
Proof. intros [Hemit _] w. apply Hemit. Qed.

Lemma preserves_client_upload_picture {X : Type} (f : world → X) (E : env)
    (c : VimeoClient) (video_uri file_path : string) (activate : bool) :
  framed f → preserves f (client_upload_picture E c video_uri file_path activate).
Proof. intros [Hemit _] w. apply Hemit. Qed.

Lemma preserves_urlretrieve {X : Type} (f : world → X) (E : env)
    (url filename : string) :
  framed f → (∀ fs w, f (with_files fs w) = f w) →
  preserves f (urlretrieve E url filename).
Proof.
  intros [Hemit _] Hfiles w. unfold urlretrieve. cbv zeta.
  destruct (url_fetch E (trace w) url); simpl;
    [destruct (fetch_leaves_file E (trace w) url); simpl|];
    rewrite ?Hfiles; apply Hemit.
Qed.

Lemma preserves_os_remove {X : Type} (f : world → X) (path : string) :
  framed f → (∀ fs w, f (with_files fs w) = f w) → preserves f (os_remove path).
Proof.
  intros [Hemit _] Hfiles w. unfold os_remove.
  destruct (bool_decide _); simpl; [|done]. rewrite Hfiles. apply Hemit.
Qed.

(** Takes a method apart along its binds and tests; [Hf] is the proof that
    the observation is framed. *)
Ltac frame Hf :=
  repeat first
    [ apply preserves_ret
    | apply preserves_raise
    | apply preserves_get_REQUEST_HEADERS
    | apply preserves_get_USER_ID
    | apply preserves_video_id_of
    | apply preserves_lift
    | apply preserves_response_json
    | apply preserves_os_path_exists
    | apply preserves_requests_send; exact Hf
    | apply preserves_set_response_code; exact Hf
    | apply preserves_client_upload; exact Hf
    | apply preserves_client_upload_picture; exact Hf
    | assumption
    | apply preserves_try_except; [|intros ?]
    | apply preserves_bind; [|intros ?]
    | match goal with
      | |- preserves _ (if ?c then _ else _) => destruct c
      | |- preserves _ (match ?x with _ => _ end) => destruct x
      end ].

(** The methods that talk to the service directly leave every framed
    observation as it was. *)
Lemma http_calls_framed {X : Type} (f : world → X) (E : env) (c : call) (w : world) :
  framed f → uses_sdk c = false → f (after E c w) = f w.
Proof.
  intros Hf Hc. revert w.
  destruct c; try discriminate Hc; clear Hc; unfold after;
    match goal with |- ∀ w, f (fst (?m w)) = f w => change (preserves f m) end.
  - unfold get_video, requests_get. frame Hf.
  - unfold get_common_video_information, get_video, requests_get. frame Hf.
  - unfold change_video_content_rating, requests_patch. cbv zeta. frame Hf.
  - unfold pull_video_from_url, requests_head, requests_post. cbv zeta. frame Hf.
  - unfold update_video_title, requests_patch. cbv zeta. frame Hf.
  - unfold delete_video, requests_delete. frame Hf.
  - unfold create_folder, requests_post. cbv zeta. frame Hf.
  - unfold update_folder_name, requests_patch. cbv zeta. frame Hf.
  - unfold delete_folder, requests_delete. cbv zeta. frame Hf.
  - unfold remove_video_from_folder, requests_delete. frame Hf.
  - unfold add_video_to_folder, requests_put. frame Hf.
  - unfold tag_video, requests_put. frame Hf.
  - unfold remove_tag_from_video, requests_delete. frame Hf.
  - unfold domain_whitelist_video, requests_put. frame Hf.
  - unfold get_video_hash, hash_of_video, get_video, requests_get. frame Hf.
Qed.

(** The two SDK methods leave alone what is framed and is not touched by the
    memoization of the client or by writes to the file system. *)
Lemma sdk_calls_framed {X : Type} (f : world → X) (E : env) (c : call) (w : world) :
  framed f →
  preserves f _get_or_set_py_vimeo_client →
  (downloads c = true → ∀ fs w, f (with_files fs w) = f w) →
  uses_sdk c = true → f (after E c w) = f w.
Proof.
  intros Hf Hclient Hfiles Hc. revert w.
  destruct c; try discriminate Hc; clear Hc; unfold after;
    match goal with |- ∀ w, f (fst (?m w)) = f w => change (preserves f m) end.
  - unfold upload_video. cbv zeta. frame Hf.
  - unfold upload_picture. simpl in Hfiles.
    destruct (startswith file_path "http").
    + apply preserves_bind.
      { apply preserves_bind; [|intros ?; frame Hf].
        apply preserves_urlretrieve; [exact Hf|by apply Hfiles]. }
      intros [[name|] path]; cbn [fst snd]; [|frame Hf].
      apply preserves_bind; [assumption|]. intros ?.
      apply preserves_bind; [apply preserves_client_upload_picture; exact Hf|].
      intros ?. apply preserves_bind; [|intros ?; frame Hf].
      destruct (negb (String.eqb name "")); [|frame Hf].
      apply preserves_bind; [frame Hf|]. intros [|]; [|frame Hf].
      apply preserves_os_remove; [exact Hf|by apply Hfiles].
    + apply preserves_bind_ret. cbn [fst snd]. frame Hf.
Qed.

Lemma framed_config : framed (fun w => config_of (self w)).
Proof. split; intros; reflexivity. Qed.

Lemma framed_files : framed files.
Proof. split; intros; reflexivity. Qed.

Lemma framed_the_client : framed (fun w => the_client (self w)).
Proof. split; intros; reflexivity. Qed.

(** No public method assigns the access token, the client id, the client
    secret, the user id or the request headers. *)
Lemma every_call_keeps_configuration (E : env) (c : call) (w : world) :
  config_of (self (after E c w)) = config_of (self w).
Proof.
  destruct (uses_sdk c) eqn:Hsdk.
  - apply (sdk_calls_framed (fun w => config_of (self w)) E c w framed_config);
      [|done|done].
    intros w0. unfold _get_or_set_py_vimeo_client. cbv zeta.
      destruct (_ || _)%bool; [done|]. by destruct (py_vimeo_client (self w0)).
  - by apply (http_calls_framed (fun w => config_of (self w)) E c w framed_config).
Qed.

(** Only [upload_picture] on a URL writes to the file system. *)
Lemma only_downloads_touch_files (E : env) (c : call) (w : world) :
  downloads c = false → files (after E c w) = files w.
Proof.
  intros Hdl. destruct (uses_sdk c) eqn:Hsdk.
  - apply (sdk_calls_framed files E c w framed_files); [|congruence|done].
    intros w0. unfold _get_or_set_py_vimeo_client. cbv zeta.
    destruct (_ || _)%bool; [done|]. by destruct (py_vimeo_client (self w0)).
  - by apply (http_calls_framed files E c w framed_files).
Qed.

(** The SDK client that [_get_or_set_py_vimeo_client] hands out is the same
    before and after a call. *)
Lemma every_call_keeps_the_client (E : env) (c : call) (w : world) :
  the_client (self (after E c w)) = the_client (self w).
Proof.
  destruct (uses_sdk c) eqn:Hsdk.
  - apply (sdk_calls_framed (fun w => the_client (self w)) E c w
             framed_the_client); [|done|done].
    intros w0. unfold _get_or_set_py_vimeo_client. cbv zeta.
    destruct (_ || _)%bool; [done|]. unfold the_client.
    destruct (py_vimeo_client (self w0)) as [c0|] eqn:Hc; simpl;
      rewrite ?Hc; reflexivity.
  - by apply (http_calls_framed (fun w => the_client (self w)) E c w
                framed_the_client).
Qed.

(** X1: over any sequence of calls of public methods, returning or raising,
    the access token, the client id, the client secret, the user id and the
    request headers stay what [__init__] made them. *)
Theorem configuration_is_immutable (E : env) (cs : list call) (w : world) :
  config_of (self (after_all E cs w)) = config_of (self w).
Proof.
  unfold after_all. revert w.
  induction cs as [|c cs IH]; intros w; [reflexivity|].
  cbn [fold_left]. rewrite IH. apply every_call_keeps_configuration.
Qed.

(** X2: over any sequence of calls in which [upload_picture] is never given a
    URL, the set of files in the working directory stays as it was: a local
    picture or video handed to the SDK is never removed. *)
Theorem files_untouched_without_downloads (E : env) (cs : list call) (w : world) :
  forallb (fun c => negb (downloads c)) cs = true →
  files (after_all E cs w) = files w.
Proof.
  unfold after_all. revert w.
  induction cs as [|c cs IH]; intros w Hcs; [reflexivity|].
  cbn [forallb] in Hcs. apply andb_true_iff in Hcs as [Hc Hcs].
  cbn [fold_left]. rewrite (IH _ Hcs).
  apply only_downloads_touch_files. by apply negb_true_iff.
Qed.

Lemma files_untouched_without_downloads_witness :
  files (after_all good_env
           [Call_upload_picture "/videos/42" "cover.png";
            Call_upload_video "talk.mp4" None None None;
            Call_delete_video "/videos/42"]
           (with_files {[ "cover.png"; "talk.mp4" ]} (world_of full_client)))
    = files (with_files {[ "cover.png"; "talk.mp4" ]} (world_of full_client)).
Proof.
  apply (files_untouched_without_downloads good_env
           [Call_upload_picture "/videos/42" "cover.png";
            Call_upload_video "talk.mp4" None None None;
            Call_delete_video "/videos/42"]).
  reflexivity.
Defined.

(** X3: over any sequence of calls, the SDK client that
    [_get_or_set_py_vimeo_client] hands out stays the same: once memoized it
    is never replaced, and before that it is the one the configuration
    determines. *)
Theorem sdk_client_is_stable (E : env) (cs : list call) (w : world) :
  the_client (self (after_all E cs w)) = the_client (self w).
Proof.
  unfold after_all. revert w.
  induction cs as [|c cs IH]; intros w; [reflexivity|].
  cbn [fold_left]. rewrite IH. apply every_call_keeps_the_client.
Qed.

(** ** The SDK client *)

(** X4: with a client id and a client secret, [_get_or_set_py_vimeo_client]
    returns a client built from the token, the id and the secret, stores it,
    and touches nothing else; a second call returns the same client and
    changes nothing at all. *)
Theorem get_or_set_client_memoizes (w : world) :
  truthy_ostr (CLIENT_ID (self w)) = true →
  truthy_ostr (CLIENT_SECRET (self w)) = true →
  ∃ w',
    _get_or_set_py_vimeo_client w = (w', Ok (the_client (self w)))
    ∧ py_vimeo_client (self w') = Some (the_client (self w))
    ∧ (py_vimeo_client (self w) = None →
       the_client (self w)
       = mk_VimeoClient (ACCESS_TOKEN (self w)) (CLIENT_ID (self w))
           (CLIENT_SECRET (self w)))
    ∧ _get_or_set_py_vimeo_client w' = (w', Ok (the_client (self w)))
    ∧ trace w' = trace w ∧ files w' = files w
    ∧ response_code (self w') = response_code (self w).
Proof.
  intros Hid Hsecret. unfold _get_or_set_py_vimeo_client, the_client. cbv zeta.
  rewrite Hid, Hsecret. cbn [negb orb].
  destruct (py_vimeo_client (self w)) as [c|] eqn:Hc.
  - exists w. rewrite Hid, Hsecret, Hc. cbn [negb orb]. by repeat split.
  - eexists. split; [reflexivity|]. simpl. rewrite Hid, Hsecret.
    by repeat split.
Qed.

Lemma get_or_set_client_memoizes_witness :
  ∃ w',
    _get_or_set_py_vimeo_client (world_of full_client)
      = (w', Ok (the_client (self (world_of full_client))))
    ∧ py_vimeo_client (self w') = Some (the_client (self (world_of full_client)))
    ∧ (py_vimeo_client (self (world_of full_client)) = None →
       the_client (self (world_of full_client))
       = mk_VimeoClient (ACCESS_TOKEN (self (world_of full_client)))
           (CLIENT_ID (self (world_of full_client)))
           (CLIENT_SECRET (self (world_of full_client))))
    ∧ _get_or_set_py_vimeo_client w'
      = (w', Ok (the_client (self (world_of full_client))))
    ∧ trace w' = trace (world_of full_client)
    ∧ files w' = files (world_of full_client)
    ∧ response_code (self w') = response_code (self (world_of full_client)).
Proof.
  apply (get_or_set_client_memoizes (world_of full_client)); reflexivity.
Defined.

(** X5: [_get_or_set_py_vimeo_client] raises [NotImplementedError] exactly
    when the client id or the client secret is missing or empty, also when a
    client has been memoized before; the state is then left untouched. *)
Theorem get_or_set_client_guard (w : world) :
  (snd (_get_or_set_py_vimeo_client w) = Raise NotImplementedError
   ↔ (truthy_ostr (CLIENT_ID (self w)) && truthy_ostr (CLIENT_SECRET (self w)))%bool
     = false)
  ∧ (snd (_get_or_set_py_vimeo_client w) = Raise NotImplementedError →
     fst (_get_or_set_py_vimeo_client w) = w).
Proof.
  unfold _get_or_set_py_vimeo_client. cbv zeta. rewrite <- negb_andb.
  destruct (truthy_ostr (CLIENT_ID (self w))
            && truthy_ostr (CLIENT_SECRET (self w)))%bool; cbn [negb].
  - destruct (py_vimeo_client (self w)); simpl; split;
      (split || idtac); intros; congruence.
  - simpl. by repeat split.
Qed.

Lemma get_or_set_client_guard_witness :
  fst (_get_or_set_py_vimeo_client
         (world_of (Vimeo_init (Some "token") (Some "id") (Some "") None)))
    = world_of (Vimeo_init (Some "token") (Some "id") (Some "") None).
Proof.
  apply (get_or_set_client_guard
           (world_of (Vimeo_init (Some "token") (Some "id") (Some "") None))).
  reflexivity.
Defined.

(** ** The status after a call *)

(** X6: a method that talks to the service directly either changed nothing
    (a rejected content rating) or left in [response_code] the status of the
    answer to the last request it sent, [0] being stored as [None]; this holds
    also when the method goes on to raise on the body of the answer. *)
Theorem http_calls_record_status (E : env) (c : call) (w : world) :
  uses_sdk c = false →
  after E c w = w
  ∨ response_code (self (after E c w))
    = recorded (last_status E (trace (after E c w))).
Proof.
  intros Hc. destruct c; try discriminate Hc; clear Hc; cbn [after].
  - right. apply get_video_records_status.
  - right. apply get_common_video_information_records_status.
  - assert (Hsome : ∀ r,
              fst (change_video_content_rating E video_uri (Some r) w) = w
              ∨ response_code (self (fst (change_video_content_rating E video_uri
                                            (Some r) w)))
                = recorded (last_status E
                    (trace (fst (change_video_content_rating E video_uri
                                   (Some r) w))))).
    { intros r. destruct (str_in r content_ratings) eqn:Hin.
      - right. by apply change_video_content_rating_records_status.
      - left. unfold change_video_content_rating. cbv zeta. cbn [kwarg].
        rewrite Hin. reflexivity. }
    destruct rating as [r|]; [apply Hsome|apply (Hsome "safe")].
  - right. apply pull_video_from_url_records_status.
  - right. apply update_video_title_records_status.
  - right. apply delete_video_records_status.
  - right. apply create_folder_records_status.
  - right. apply update_folder_name_records_status.
  - right. apply delete_folder_records_status.
  - right. apply remove_video_from_folder_records_status.
  - right. apply add_video_to_folder_records_status.
  - right. apply tag_video_records_status.
  - right. apply remove_tag_from_video_records_status.
  - right. apply domain_whitelist_video_records_status.
  - right. apply get_video_hash_records_status.
Qed.

Lemma http_calls_record_status_witness :
  after not_found_env (Call_create_folder "Talks") (world_of token_only_client)
    = world_of token_only_client
  ∨ response_code
      (self (after not_found_env (Call_create_folder "Talks")
               (world_of token_only_client)))
    = recorded
        (last_status not_found_env
           (trace (after not_found_env (Call_create_folder "Talks")
                     (world_of token_only_client)))).
Proof.
  apply (http_calls_record_status not_found_env (Call_create_folder "Talks")
           (world_of token_only_client)).
  reflexivity.
Defined.

(** ** The SDK methods *)

(** X7: without a client id or a client secret, [upload_video] and
    [upload_picture] on a local path raise [NotImplementedError] and leave the
    state as it was: nothing is handed to the SDK. *)
Theorem sdk_methods_need_credentials (E : env) (w : world)
    (file_path video_uri picture_path : string)
    (video_name video_description settings : option pyval) :
  (truthy_ostr (CLIENT_ID (self w)) && truthy_ostr (CLIENT_SECRET (self w)))%bool
    = false →
  startswith picture_path "http" = false →
  upload_video E file_path video_name video_description settings w
    = (w, Raise NotImplementedError)
  ∧ upload_picture E video_uri picture_path w = (w, Raise NotImplementedError).
Proof.
  intros Hcred Hlocal. split.
  - by apply upload_video_without_credentials.
  - unfold upload_picture, bind, ret, _get_or_set_py_vimeo_client. cbv zeta.
    rewrite Hlocal. cbn [fst snd]. rewrite <- negb_andb, Hcred. reflexivity.
Qed.

Lemma sdk_methods_need_credentials_witness :
  upload_video good_env "talk.mp4" None None None (world_of token_only_client)
    = (world_of token_only_client, Raise NotImplementedError)
  ∧ upload_picture good_env "/videos/42" "cover.png" (world_of token_only_client)
    = (world_of token_only_client, Raise NotImplementedError).
Proof.
  apply (sdk_methods_need_credentials good_env (world_of token_only_client));
    reflexivity.
Defined.

(** X8: with credentials, [upload_video] makes exactly one SDK call, with the
    memoized client, and its outcome is the outcome of that call: the value
    the SDK returns, or the exception it raises. *)
Theorem upload_video_returns_sdk_result (E : env) (w : world) (file_path : string)
    (video_name video_description settings : option pyval) :
  (truthy_ostr (CLIENT_ID (self w)) && truthy_ostr (CLIENT_SECRET (self w)))%bool
    = true →
  let data :=
    if truthy (kwarg (PDict []) settings) then kwarg (PDict []) settings
    else upload_video_default_data (kwarg PNone video_name)
           (kwarg PNone video_description) in
  let run := upload_video E file_path video_name video_description settings w in
  snd run = sdk_upload E (trace w) (the_client (self w)) file_path data
  ∧ events_since w (fst run) = [EvSdkUpload (the_client (self w)) file_path data]
  ∧ py_vimeo_client (self (fst run)) = Some (the_client (self w)).
Proof.
  intros Hcred data run. subst run. split; [|split].
  - subst data.
    unfold upload_video, bind, ret, _get_or_set_py_vimeo_client, client_upload,
      the_client.
    cbv zeta. rewrite <- negb_andb, Hcred. cbn [negb].
    destruct (truthy (kwarg (PDict []) settings)); cbn [negb];
      destruct (py_vimeo_client (self w)); simpl;
      match goal with
      | |- context [sdk_upload E ?t ?c ?f ?d] => destruct (sdk_upload E t c f d)
      end; try reflexivity; rewrite _set_response_code_spec; reflexivity.
  - apply events_since_app, upload_video_trace. exact Hcred.
  - subst data.
    unfold upload_video, bind, ret, _get_or_set_py_vimeo_client, client_upload,
      the_client.
    cbv zeta. rewrite <- negb_andb, Hcred. cbn [negb].
    destruct (py_vimeo_client (self w)) eqn:Hc; simpl;
      match goal with
      | |- context [sdk_upload E ?t ?c ?f ?d] => destruct (sdk_upload E t c f d)
      end; simpl; rewrite ?_set_response_code_spec; simpl; rewrite ?Hc;
      reflexivity.
Qed.

Lemma upload_video_returns_sdk_result_witness :
  snd (upload_video failing_upload_env "talk.mp4" None None None
         (world_of full_client))
    = Raise (SdkError "upload failed").
Proof.
  apply (upload_video_returns_sdk_result failing_upload_env (world_of full_client)
           "talk.mp4" None None None).
  reflexivity.
Defined.

(** X9: on a local path and with credentials, [upload_picture] makes exactly
    one SDK call, for the path as given and with [activate=True]; its outcome
    is the outcome of that call, and nothing is downloaded or removed. *)
Theorem upload_picture_local_path (E : env) (w : world)
    (video_uri file_path : string) :
  startswith file_path "http" = false →
  (truthy_ostr (CLIENT_ID (self w)) && truthy_ostr (CLIENT_SECRET (self w)))%bool
    = true →
  let run := upload_picture E video_uri file_path w in
  snd run = sdk_upload_picture E (trace w) (the_client (self w)) video_uri
              file_path true
  ∧ trace (fst run)
    = trace w ++ [EvSdkUploadPicture (the_client (self w)) video_uri file_path true]
  ∧ files (fst run) = files w.
Proof.
  intros Hlocal Hcred run. subst run.
  unfold upload_picture, bind, ret, _get_or_set_py_vimeo_client,
    client_upload_picture, the_client.
  cbv zeta. rewrite Hlocal. cbn [fst snd]. rewrite <- negb_andb, Hcred.
  cbn [negb].
  destruct (py_vimeo_client (self w)); simpl;
    match goal with
    | |- context [sdk_upload_picture E ?t ?c ?v ?f ?a] =>
        destruct (sdk_upload_picture E t c v f a)
    end; by repeat split.
Qed.

Lemma upload_picture_local_path_witness :
  snd (upload_picture good_env "/videos/42" "cover.png" (world_of full_client))
    = sdk_upload_picture good_env (trace (world_of full_client))
        (the_client (self (world_of full_client))) "/videos/42" "cover.png" true.
Proof.
  apply (upload_picture_local_path good_env (world_of full_client)
           "/videos/42" "cover.png"); reflexivity.
Defined.

(** X10: on a URL that ends in a file name, when the download and the upload
    succeed, [upload_picture] downloads to that name in the working directory,
    hands that file to the SDK, removes it and returns what the SDK returned.
    A file of that name that was there before the call is gone as well; no
    other file is touched. *)
Theorem upload_picture_url_success (E : env) (w : world)
    (video_uri url : string) (r : pyval) :
  startswith url "http" = true →
  basename url ≠ "" →
  url_fetch E (trace w) url = None →
  (truthy_ostr (CLIENT_ID (self w)) && truthy_ostr (CLIENT_SECRET (self w)))%bool
    = true →
  sdk_upload_picture E (trace w ++ [EvUrlRetrieve url (basename url)])
    (the_client (self w)) video_uri (basename url) true = Ok r →
  let run := upload_picture E video_uri url w in
  snd run = Ok r
  ∧ trace (fst run)
    = trace w ++ [EvUrlRetrieve url (basename url);
                  EvSdkUploadPicture (the_client (self w)) video_uri
                    (basename url) true;
                  EvRemove (basename url)]
  ∧ files (fst run) = files w ∖ {[basename url]}.
Proof.
  intros Hhttp Hname Hfetch Hcred. apply String.eqb_neq in Hname.
  unfold upload_picture, bind, ret, urlretrieve, _get_or_set_py_vimeo_client,
    client_upload_picture, os_path_exists, os_remove, the_client.
  rewrite Hhttp, Hname, Hfetch. cbv zeta. simpl.
  rewrite <- negb_andb, Hcred. simpl.
  destruct (py_vimeo_client (self w)); simpl; intros ->; simpl;
    repeat (rewrite ?Hname, ?downloaded_file_present; simpl);
    (split; [reflexivity|]);
    (split; [by rewrite <- !app_assoc|]);
    apply set_eq; intros x;
    rewrite !elem_of_difference, elem_of_union; tauto.
Qed.

Lemma upload_picture_url_success_witness :
  let w := with_files {[ "cover.png"; "notes.txt" ]} (world_of full_client) in
  let run := upload_picture good_env "/videos/42"
               "http://example.com/img/cover.png" w in
  snd run = Ok picture_record
  ∧ trace (fst run)
    = trace w ++ [EvUrlRetrieve "http://example.com/img/cover.png"
                    (basename "http://example.com/img/cover.png");
                  EvSdkUploadPicture (the_client (self w)) "/videos/42"
                    (basename "http://example.com/img/cover.png") true;
                  EvRemove (basename "http://example.com/img/cover.png")]
  ∧ files (fst run) = files w ∖ {[basename "http://example.com/img/cover.png"]}.
Proof.
  apply (upload_picture_url_success good_env
           (with_files {[ "cover.png"; "notes.txt" ]} (world_of full_client))
           "/videos/42" "http://example.com/img/cover.png" picture_record);
    [reflexivity | vm_compute; discriminate | reflexivity | reflexivity
    | reflexivity].
Defined.

(** ** The video id *)

Lemma string_app_assoc (a b c : string) : (a +:+ b) +:+ c = a +:+ (b +:+ c).
Proof.
  induction a as [|x a IH]; [reflexivity|].
  change (String x ((a +:+ b) +:+ c) = String x (a +:+ (b +:+ c))).
  by rewrite IH.
Qed.

(** Joining the pieces of a split with the separator gives the string back. *)
Lemma join_split (sep : ascii) (s : string) :
  join (String sep EmptyString) (split sep s) = s.
Proof.
  induction s as [|c s IH]; [reflexivity|]. simpl.
  pose proof (split_not_nil sep s) as Hne.
  destruct (Ascii.eqb c sep) eqn:Hc.
  - apply Ascii.eqb_eq in Hc. subst c.
    destruct (split sep s) as [|x l]; [done|].
    change (join (String sep "") ("" :: x :: l))
      with (String sep (join (String sep "") (x :: l))).
    by rewrite IH.
  - destruct (split sep s) as [|x [|y l]]; [done| |].
    + simpl in *. by rewrite IH.
    + change (join (String sep "") (String c x :: y :: l))
        with (String c (join (String sep "") (x :: y :: l))).
      by rewrite IH.
Qed.

(** No piece of a split contains the separator. *)
Lemma split_pieces (sep : ascii) (s : string) :
  Forall (fun p => has_char sep p = false) (split sep s).
Proof.
  induction s as [|c s IH]; simpl; [by repeat constructor|].
  destruct (Ascii.eqb c sep) eqn:Hc; [by constructor|].
  pose proof (split_not_nil sep s) as Hne.
  destruct (split sep s) as [|x l]; [done|].
  inversion IH as [|? ? Hx Hl]; subst. constructor; [|done].
  simpl. by rewrite Hc, Hx.
Qed.

Lemma pop_Forall (P : string → Prop) (l : list string) (x : string) :
  Forall P l → pop l = Ok x → P x.
Proof.
  induction l as [|a l IH]; [discriminate|]. intros Hall Hpop.
  inversion Hall as [|? ? Ha Hl]; subst.
  destruct l as [|b l]; [by inversion Hpop; subst|]. by apply IH.
Qed.

Lemma join_pop (sep : string) (l : list string) (x : string) :
  pop l = Ok x → join sep l = x ∨ ∃ p, join sep l = p +:+ sep +:+ x.
Proof.
  induction l as [|a l IH]; [discriminate|]. intros Hpop.
  destruct l as [|b l]; [left; by inversion Hpop|].
  destruct (IH Hpop) as [Hj|[p Hj]]; right.
  - exists a. change (join sep (a :: b :: l)) with (a +:+ sep +:+ join sep (b :: l)).
    by rewrite Hj.
  - exists (a +:+ sep +:+ p).
    change (join sep (a :: b :: l)) with (a +:+ sep +:+ join sep (b :: l)).
    by rewrite Hj, !string_app_assoc.
Qed.

Lemma split_app (sep : ascii) (p b : string) :
  split sep (p +:+ String sep b) = split sep p ++ split sep b.
Proof.
  induction p as [|c p IH]; simpl.
  - by rewrite Ascii.eqb_refl.
  - destruct (Ascii.eqb c sep); [by rewrite IH|].
    rewrite IH. pose proof (split_not_nil sep p) as Hne.
    by destruct (split sep p).
Qed.

Lemma split_no_sep (sep : ascii) (b : string) :
  has_char sep b = false → split sep b = [b].
Proof.
  induction b as [|c b IH]; [done|]. simpl. intros Hb.
  apply orb_false_iff in Hb as [Hc Hb]. rewrite Hc, (IH Hb). reflexivity.
Qed.

Lemma pop_app_singleton (l : list string) (x : string) : pop (l ++ [x]) = Ok x.
Proof.
  induction l as [|a l IH]; [reflexivity|].
  simpl. rewrite IH. by destruct (l ++ [x]) eqn:Hl; [destruct l|].
Qed.

(** X11: the id a method takes from a video URI ([split("/").pop()], and
    [os.path.basename] for the download) is what follows the last slash: it
    has no slash in it, the URI is the id or ends in a slash and the id, and a
    string without slash is its own id. *)
Theorem basename_last_segment (s : string) :
  has_char "/" (basename s) = false
  ∧ (s = basename s ∨ ∃ p, s = p +:+ "/" +:+ basename s)
  ∧ (∀ p b, has_char "/" b = false → s = p +:+ "/" +:+ b → basename s = b)
  ∧ (has_char "/" s = false → basename s = s).
Proof.
  pose proof (pop_split_slash s) as Hpop. repeat split.
  - exact (pop_Forall _ _ _ (split_pieces "/" s) Hpop).
  - destruct (join_pop "/" _ _ Hpop) as [Hj|[p Hj]]; rewrite join_split in Hj;
      [by left|right; by exists p].
  - intros p b Hb ->. unfold basename.
    change (p +:+ "/" +:+ b) with (p +:+ String "/" b).
    by rewrite split_app, (split_no_sep _ _ Hb), pop_app_singleton.
  - intros Hs. unfold basename. by rewrite (split_no_sep _ _ Hs).
Qed.

Lemma basename_last_segment_witness :
  basename "https://vimeo.com/videos/42" = "42" ∧ basename "42" = "42".
Proof.
  split.
  - apply (basename_last_segment "https://vimeo.com/videos/42"
             ) with (p := "https://vimeo.com/videos"); reflexivity.
  - apply (basename_last_segment "42"). reflexivity.
Defined.

(** X12: the methods that take the id from the video URI see nothing else of
    it: two URIs with the same last segment give the same requests, the same
    state and the same result, so that a bare id works as well as a URI. *)
Theorem video_uri_only_last_segment (E : env) (w : world) (u1 u2 : string)
    (rating : option string) (folder_uri tag domain : string) :
  basename u1 = basename u2 →
  get_video E u1 w = get_video E u2 w
  ∧ get_common_video_information E u1 w = get_common_video_information E u2 w
  ∧ change_video_content_rating E u1 rating w
    = change_video_content_rating E u2 rating w
  ∧ remove_video_from_folder E folder_uri u1 w
    = remove_video_from_folder E folder_uri u2 w
  ∧ add_video_to_folder E folder_uri u1 w = add_video_to_folder E folder_uri u2 w
  ∧ tag_video E u1 tag w = tag_video E u2 tag w
  ∧ remove_tag_from_video E u1 tag w = remove_tag_from_video E u2 tag w
  ∧ domain_whitelist_video E u1 domain w = domain_whitelist_video E u2 domain w
  ∧ get_video_hash E u1 w = get_video_hash E u2 w.
Proof.
  intros Hid.
  assert (Hget : get_video E u1 w = get_video E u2 w).
  { unfold get_video, bind. by rewrite !video_id_of_ok, Hid. }
  repeat split.
  - exact Hget.
  - unfold get_common_video_information, bind. by rewrite Hget.
  - unfold change_video_content_rating. cbv zeta.
    destruct (negb _); [done|]. unfold bind. by rewrite !video_id_of_ok, Hid.
  - unfold remove_video_from_folder, bind. by rewrite !video_id_of_ok, Hid.
  - unfold add_video_to_folder, bind. by rewrite !video_id_of_ok, Hid.
  - unfold tag_video, bind. by rewrite !video_id_of_ok, Hid.
  - unfold remove_tag_from_video, bind. by rewrite !video_id_of_ok, Hid.
  - unfold domain_whitelist_video, bind. by rewrite !video_id_of_ok, Hid.
  - unfold get_video_hash, bind. by rewrite Hget.
Qed.

Lemma video_uri_only_last_segment_witness :
  tag_video good_env "/videos/42" "demo" (world_of token_only_client)
    = tag_video good_env "42" "demo" (world_of token_only_client).
Proof.
  apply (video_uri_only_last_segment good_env (world_of token_only_client)
           "/videos/42" "42" None "/users/7/projects/1" "demo" "example.com").
  reflexivity.
Defined.

(** ** The common video information *)

(** X13: [get_common_video_information] sends the one request of [get_video]
    and projects the record: with the transcode status and the five other
    fields present, the result is the dict of these six values; when one of
    the top-level fields cannot be read off the record the call raises, with
    the state as [get_video] left it (the status of the answer is recorded). *)
Theorem get_common_video_information_projects (E : env) (w w' : world)
    (video_uri : string) (video : pyval) :
  get_video E video_uri w = (w', Ok video) →
  (∀ t s p l d x y,
     getitem video "transcode" = Ok t → getitem t "status" = Ok s →
     getitem video "is_playable" = Ok p → getitem video "link" = Ok l →
     getitem video "duration" = Ok d → getitem video "width" = Ok x →
     getitem video "height" = Ok y →
     get_common_video_information E video_uri w
       = (w', Ok (PDict [("status", s); ("is_playable", p); ("link", l);
                         ("duration", d); ("width", x); ("height", y)])))
  ∧ (∀ k e,
       k ∈ ["transcode"; "is_playable"; "link"; "duration"; "width"; "height"] →
       getitem video k = Raise e →
       ∃ e', get_common_video_information E video_uri w = (w', Raise e')).
Proof.
  intros Hget. unfold get_common_video_information, bind, lift, ret.
  rewrite Hget. split.
  - intros t s p l d x y -> -> -> -> -> -> ->. reflexivity.
  - intros k e Hk Hmiss.
    destruct (getitem video "transcode") as [t|] eqn:Ht; [|by eexists].
    destruct (getitem t "status") as [s|] eqn:Hs; [|by eexists].
    destruct (getitem video "is_playable") as [p|] eqn:Hp; [|by eexists].
    destruct (getitem video "link") as [l|] eqn:Hl; [|by eexists].
    destruct (getitem video "duration") as [d|] eqn:Hd; [|by eexists].
    destruct (getitem video "width") as [x|] eqn:Hx; [|by eexists].
    destruct (getitem video "height") as [y|] eqn:Hy; [|by eexists].
    exfalso.
    repeat (apply elem_of_cons in Hk as [->|Hk]; [congruence|]).
    by apply not_elem_of_nil in Hk.
Qed.

Lemma get_common_video_information_projects_witness :
  get_common_video_information catalog_env "/videos/42" (world_of token_only_client)
    = (fst (get_video catalog_env "/videos/42" (world_of token_only_client)),
       Ok (PDict [("status", PStr "complete"); ("is_playable", PBool true);
                  ("link", PStr "https://vimeo.com/42"); ("duration", PInt 180);
                  ("width", PInt 1920); ("height", PInt 1080)]))
  ∧ ∃ e', get_common_video_information good_env "/videos/42"
            (world_of token_only_client)
          = (fst (get_video good_env "/videos/42" (world_of token_only_client)),
             Raise e').
Proof.
  split.
  - destruct (get_common_video_information_projects catalog_env
                (world_of token_only_client)
                (fst (get_video catalog_env "/videos/42"
                        (world_of token_only_client)))
                "/videos/42" complete_record eq_refl) as [Hall _].
    apply (Hall (PDict [("status", PStr "complete")])); reflexivity.
  - destruct (get_common_video_information_projects good_env
                (world_of token_only_client)
                (fst (get_video good_env "/videos/42" (world_of token_only_client)))
                "/videos/42" video_record eq_refl) as [_ Hmissing].
    apply (Hmissing "transcode" (KeyError "transcode")).
    + apply (bool_decide_unpack _). vm_compute. exact I.
    + reflexivity.
Defined.

(** ** The requests of [pull_video_from_url] *)

(** X14: every request that [pull_video_from_url] sends is either a POST to
    https://api.vimeo.com/me/videos with the request headers of the object, or
    the HEAD request to the download URL, which carries no headers and no
    body: the bearer token never goes to the download host. The method does
    nothing else that leaves the process. *)
Theorem pull_video_token_stays_with_service (E : env) (w : world)
    (download_url video_name : string)
    (folder_uri file_size settings logo_link : option pyval) :
  let evs :=
    events_since w
      (fst (pull_video_from_url E download_url video_name folder_uri file_size
              settings logo_link w)) in
  length (requests_of evs) = length evs
  ∧ Forall
      (fun r =>
         (rq_method r = POST
          ∧ rq_url r = "https://api.vimeo.com/me/videos"
          ∧ rq_headers r = Some (REQUEST_HEADERS (self w)))
         ∨ (rq_method r = HEAD
            ∧ rq_url r = download_url
            ∧ rq_headers r = None
            ∧ rq_json r = None))
      (requests_of evs).
Proof.
  intros evs. subst evs.
  rewrite (events_since_app _ _ _ (pull_video_trace E w download_url video_name
             folder_uri file_size settings logo_link)).
  destruct (truthy (kwarg PNone file_size)); simpl; (split; [reflexivity|]).
  - constructor; [|constructor]. left. by repeat split.
  - constructor; [right; by repeat split|].
    constructor; [|constructor]. left. by repeat split.
Qed.

(** ** What the methods return *)

Lemma last_answer_snoc (E : env) (tr : list event) (r : request) :
  last_answer E (tr ++ [EvRequest r]) = Some (remote E tr r).
Proof.
  unfold last_answer. rewrite reverse_snoc, reverse_involutive. reflexivity.
Qed.

(** X15: [pull_video_from_url] and [create_folder] return the [uri] field of
    the answer to their POST request. An answer that is not JSON raises the
    decoding error, a JSON answer without [uri] (an error answer, say) raises
    the [KeyError]; in each case the status of the answer has been recorded. *)
Theorem creation_returns_uri_of_answer (E : env) (w : world)
    (download_url video_name folder_name : string)
    (folder_uri file_size settings logo_link : option pyval) :
  let uri_of (run : world * result pyval) :=
    ∃ resp,
      last_answer E (trace (fst run)) = Some resp
      ∧ snd run = match rs_json resp with
                  | Some body => getitem body "uri"
                  | None => Raise JSONDecodeError
                  end
      ∧ response_code (self (fst run)) = recorded (Some (status_code resp)) in
  uri_of (pull_video_from_url E download_url video_name folder_uri file_size
            settings logo_link w)
  ∧ uri_of (create_folder E folder_name w).
Proof.
  intros uri_of. subst uri_of. cbv beta. split.
  - unfold pull_video_from_url. cbv zeta.
    destruct (negb (truthy (kwarg PNone file_size))); run; unfold response_json;
      match goal with
      | |- context [rs_json ?r] => exists r; destruct (rs_json r) as [body|]
      end; simpl; rewrite ?last_answer_snoc; try (by repeat split);
      destruct (getitem body "uri"); simpl; rewrite ?last_answer_snoc;
      by repeat split.
  - unfold create_folder. run. unfold response_json.
    match goal with
    | |- context [rs_json ?r] => exists r; destruct (rs_json r) as [body|]
    end; simpl; rewrite ?last_answer_snoc; try (by repeat split);
    destruct (getitem body "uri"); simpl; rewrite ?last_answer_snoc;
    by repeat split.
Qed.

(** X16: [create_folder] sends one POST request, to the projects of the user
    id given at construction, with the folder name as its body; without a
    user id the request goes to https://api.vimeo.com/users/None/projects. *)
Theorem create_folder_request (E : env) (w : world) (folder_name : string) :
  events_since w (fst (create_folder E folder_name w))
    = [EvRequest
         (mk_request POST
            ("https://api.vimeo.com/users/" +:+ fmt_oint (USER_ID (self w))
               +:+ "/projects")
            (Some (REQUEST_HEADERS (self w)))
            (Some (PDict [("name", PStr folder_name)])) None)]
  ∧ (USER_ID (self w) = None →
     requests_of (events_since w (fst (create_folder E folder_name w)))
       = [mk_request POST "https://api.vimeo.com/users/None/projects"
            (Some (REQUEST_HEADERS (self w)))
            (Some (PDict [("name", PStr folder_name)])) None]).
Proof.
  assert (Htrace : events_since w (fst (create_folder E folder_name w))
    = [EvRequest
         (mk_request POST
            ("https://api.vimeo.com/users/" +:+ fmt_oint (USER_ID (self w))
               +:+ "/projects")
            (Some (REQUEST_HEADERS (self w)))
            (Some (PDict [("name", PStr folder_name)])) None)]).
  { apply events_since_app. unfold create_folder. run. unfold response_json.
    match goal with
    | |- context [rs_json ?r] => destruct (rs_json r) as [body|]
    end; simpl; [|reflexivity].
    destruct (getitem body "uri"); reflexivity. }
  split; [exact Htrace|]. intros Hnone. rewrite Htrace, Hnone. reflexivity.
Qed.

Lemma create_folder_request_witness :
  requests_of
    (events_since (world_of token_only_client)
       (fst (create_folder good_env "Talks" (world_of token_only_client))))
    = [mk_request POST "https://api.vimeo.com/users/None/projects"
         (Some (REQUEST_HEADERS (self (world_of token_only_client))))
         (Some (PDict [("name", PStr "Talks")])) None].
Proof.
  apply (create_folder_request good_env (world_of token_only_client) "Talks").
  reflexivity.
Defined.

Example create_folder_url_with_user_id :
  requests_of
    (events_since (world_of full_client)
       (fst (create_folder good_env "Talks" (world_of full_client))))
    = [mk_request POST "https://api.vimeo.com/users/7/projects"
         (Some (REQUEST_HEADERS full_client))
         (Some (PDict [("name", PStr "Talks")])) None].
Proof. reflexivity. Qed.

(** X17: [get_video_hash] sends the one GET request of [get_video]; its
    outcome is read off the answer: the hash of the decoded record (empty
    when the extraction fails), and the decoding error when the body is not
    JSON, since the call of [get_video] stands outside the [try] block. *)
Theorem get_video_hash_outcome (E : env) (w : world) (video_uri : string) :
  let req := mk_request GET ("https://api.vimeo.com/videos/" +:+ basename video_uri)
               (Some (REQUEST_HEADERS (self w))) None None in
  let resp := remote E (trace w) req in
  let run := get_video_hash E video_uri w in
  events_since w (fst run) = [EvRequest req]
  ∧ snd run = match rs_json resp with
              | Some video => Ok (expected_hash E video)
              | None => Raise JSONDecodeError
              end.
Proof.
  intros req resp run. subst run. unfold get_video_hash, get_video.
  split.
  - apply events_since_app. run. unfold response_json. fold req resp.
    destruct (rs_json resp); simpl; [|reflexivity].
    unfold bind. by rewrite hash_of_video_handled.
  - run. unfold response_json. fold req resp.
    destruct (rs_json resp); simpl; [|reflexivity].
    unfold bind. by rewrite hash_of_video_handled.
Qed.

(** X18: each of the six methods that return a status code makes exactly one
    call of [requests]; whenever that request is answered, with any status and
    any body, the method records the status of the answer and returns it
    unchanged, so that no answer makes it raise. [update_video_title] and
    [delete_video] append the video URI as it is to the host;
    [add_video_to_folder], [tag_video], [remove_tag_from_video] and
    [domain_whitelist_video] use the last segment of the URI. *)
Theorem status_methods_return_answer_status (E : env) (w : world)
    (video_uri title folder_uri tag domain : string) :
  let headers := Some (REQUEST_HEADERS (self w)) in
  let id := basename video_uri in
  let answers (m : M Z) (req : request) :=
    events_since w (fst (m w)) = [EvRequest req]
    ∧ ∀ resp,
        remote E (trace w) req = resp →
        snd (m w) = Ok (status_code resp)
        ∧ response_code (self (fst (m w))) = recorded (Some (status_code resp)) in
  answers (update_video_title E video_uri title)
    (mk_request PATCH ("https://api.vimeo.com" +:+ video_uri) headers
       (Some (PDict [("name", PStr title)])) None)
  ∧ answers (delete_video E video_uri)
      (mk_request DELETE ("https://api.vimeo.com" +:+ video_uri) headers None None)
  ∧ answers (add_video_to_folder E folder_uri video_uri)
      (mk_request PUT ("https://api.vimeo.com" +:+ folder_uri +:+ "/videos/" +:+ id)
         headers None None)
  ∧ answers (tag_video E video_uri tag)
      (mk_request PUT ("https://api.vimeo.com/videos/" +:+ id +:+ "/tags/" +:+ tag)
         headers None None)
  ∧ answers (remove_tag_from_video E video_uri tag)
      (mk_request DELETE
         ("https://api.vimeo.com/videos/" +:+ id +:+ "/tags/" +:+ tag)
         headers None None)
  ∧ answers (domain_whitelist_video E video_uri domain)
      (mk_request PUT
         ("https://api.vimeo.com/videos/" +:+ id +:+ "/privacy/domains/" +:+ domain)
         headers None None).
Proof.
  intros headers id answers. subst answers headers id. cbv beta zeta.
  unfold update_video_title, delete_video, add_video_to_folder, tag_video,
    remove_tag_from_video, domain_whitelist_video, events_since.
  run. rewrite !drop_app_length.
  repeat split; intros; subst; reflexivity.
Qed.

Lemma status_methods_return_answer_status_witness :
  snd (tag_video no_content_env "/videos/42" "demo" (world_of token_only_client))
    = Ok (status_code (mk_response 204 [] None))
  ∧ response_code
      (self (fst (tag_video no_content_env "/videos/42" "demo"
                    (world_of token_only_client))))
    = recorded (Some (status_code (mk_response 204 [] None))).
Proof.
  destruct (status_methods_return_answer_status no_content_env
              (world_of token_only_client) "/videos/42" "Title"
              "/users/7/projects/1" "demo" "example.com")
    as (_ & _ & _ & [_ Htag] & _).
  apply (Htag (mk_response 204 [] None)). reflexivity.
Defined.

(** X19: a call of [change_video_content_rating] without a rating is a call
    with the rating [safe]; for an accepted rating the method returns the
    decoded body of the answer to its PATCH request, not the status code, and
    raises the decoding error when the body is not JSON. *)
Theorem change_video_content_rating_outcome (E : env) (w : world)
    (video_uri rating : string) :
  change_video_content_rating E video_uri None w
    = change_video_content_rating E video_uri (Some "safe") w
  ∧ (str_in rating content_ratings = true →
     let resp :=
       remote E (trace w)
         (mk_request PATCH ("https://api.vimeo.com/videos/" +:+ basename video_uri)
            (Some (REQUEST_HEADERS (self w)))
            (Some (PDict [("content_rating", PList [PStr rating])])) None) in
     snd (change_video_content_rating E video_uri (Some rating) w)
       = match rs_json resp with
         | Some body => Ok body
         | None => Raise JSONDecodeError
         end
     ∧ response_code
         (self (fst (change_video_content_rating E video_uri (Some rating) w)))
       = recorded (Some (status_code resp))).
Proof.
  split; [reflexivity|]. intros Hin resp.
  unfold change_video_content_rating. cbv zeta. cbn [kwarg].
  rewrite Hin. cbn [negb]. run. unfold response_json. fold resp.
  destruct (rs_json resp); by split.
Qed.

Lemma change_video_content_rating_outcome_witness :
  snd (change_video_content_rating no_content_env "/videos/42" (Some "unrated")
         (world_of token_only_client))
    = Raise JSONDecodeError
  ∧ response_code
      (self (fst (change_video_content_rating no_content_env "/videos/42"
                    (Some "unrated") (world_of token_only_client))))
    = Some 204.
Proof.
  apply (change_video_content_rating_outcome no_content_env
           (world_of token_only_client) "/videos/42" "unrated").
  reflexivity.
Defined.

(** X20: when [pull_video_from_url] asks for the size itself and the answer to
    the HEAD request has a Content-Length header, under any spelling of its
    name, the default body carries the value of the header as the string the
    server sent. *)
Theorem pull_video_size_from_header (E : env) (w : world)
    (download_url video_name value : string)
    (folder_uri file_size settings logo_link : option pyval) :
  truthy (kwarg PNone file_size) = false →
  truthy (kwarg (PDict []) settings) = false →
  header_lookup "Content-Length"
    (rs_headers (remote E (trace w)
                   (mk_request HEAD download_url None None (Some true))))
    = Some value →
  ∃ body,
    posted_body
      (events_since w
         (fst (pull_video_from_url E download_url video_name folder_uri file_size
                 settings logo_link w)))
      = Some body
    ∧ upload_size body = Ok (PStr value).
Proof.
  intros Hsize Hsettings Hlen.
  rewrite pull_video_posted_body, Hsize, Hsettings.
  eexists. split; [reflexivity|].
  unfold content_length_or_zero. rewrite Hlen. reflexivity.
Qed.

Lemma pull_video_size_from_header_witness :
  ∃ body,
    posted_body
      (events_since (world_of token_only_client)
         (fst (pull_video_from_url sized_env "https://example.com/talk.mp4" "Talk"
                 None (Some (PInt 0)) None None (world_of token_only_client))))
      = Some body
    ∧ upload_size body = Ok (PStr "1048576").
Proof.
  apply (pull_video_size_from_header sized_env (world_of token_only_client)
           "https://example.com/talk.mp4" "Talk" "1048576"
           None (Some (PInt 0)) None None); reflexivity.
Defined.
